(** * AgriPlanum: the agronomic calculators

    A shallow embedding of the calculators of AgriPlanum (planting window,
    crop cycle timeline, sowing density, soil adequacy) as they are written
    in [script.js], [docs/js/map.js] and [utils.js], and the properties
    their specification states about them.

    Modelling conventions.
    - A JavaScript number that the code only ever uses as an integer or as
      [NaN] (date fields, the [MMDD] encoding of a planting window) is an
      [option Z], [None] standing for [NaN].
    - A JavaScript number that carries a measurement (area, germination
      rate, soil values) is an IEEE-754 binary64 value, through the
      standard library's [spec_float]; products and quotients round as
      they do in JavaScript.
    - A [Date] is its time value counted in whole days since the epoch:
      every date the calculators build is a midnight, and the host's local
      zone is taken to be UTC, so local and UTC fields agree.  The fields
      are computed by the abstract operations of ECMA-262 (Day Number and
      Year Number, Month Number, Date Number, MakeDay).
    - The DOM is left out: a handler takes the values of its input
      elements and returns what it renders, the message it rejects the
      input with, or the exception it throws. *)

From Stdlib Require Import ZArith Lia Bool List String Ascii SpecFloat.
From stdpp Require Import gmap strings.

Local Open Scope string_scope.
Local Open Scope Z_scope.

(* ===================================================================== *)
(** ** Integer-or-NaN numbers *)
(* ===================================================================== *)

Module IntNum.

(** [None] is [NaN]; [undefined] used as a number is [NaN] as well. *)
Definition t := option Z.

Definition NaN : t := None.

Definition add (a b : t) : t :=
  match a, b with Some x, Some y => Some (x + y) | _, _ => None end.

Definition mul (a b : t) : t :=
  match a, b with Some x, Some y => Some (x * y) | _, _ => None end.

(** Relational operators: any comparison with [NaN] is [false]. *)
Definition gt (a b : t) : bool :=
  match a, b with Some x, Some y => y <? x | _, _ => false end.

Definition ge (a b : t) : bool :=
  match a, b with Some x, Some y => y <=? x | _, _ => false end.

Definition le (a b : t) : bool :=
  match a, b with Some x, Some y => x <=? y | _, _ => false end.

End IntNum.

(* ===================================================================== *)
(** ** Dates: the day-number operations of ECMA-262 *)
(* ===================================================================== *)

Module JSDate.

Definition DaysInYear (y : Z) : Z :=
  if negb (y mod 4 =? 0) then 365
  else if negb (y mod 100 =? 0) then 366
  else if negb (y mod 400 =? 0) then 365
  else 366.

(** Day number of the first day of year [y]. *)
Definition DayFromYear (y : Z) : Z :=
  365 * (y - 1970) + (y - 1969) / 4 - (y - 1901) / 100 + (y - 1601) / 400.

(** The largest [y] with [DayFromYear y <= t]: an estimate from the mean
    length of a Gregorian year, corrected by at most one. *)
Definition YearFromTime (t : Z) : Z :=
  let y := 1970 + (400 * t) / 146097 in
  if t <? DayFromYear y then y - 1
  else if DayFromYear (y + 1) <=? t then y + 1
  else y.

Definition InLeapYear (t : Z) : Z :=
  if DaysInYear (YearFromTime t) =? 366 then 1 else 0.

Definition DayWithinYear (t : Z) : Z := t - DayFromYear (YearFromTime t).

(** Day within the year on which month [m] (0 = January) starts;
    [leap] is 1 in a leap year and 0 otherwise. *)
Definition monthStart (m leap : Z) : Z :=
  match m with
  | 0 => 0
  | 1 => 31
  | 2 => 59 + leap
  | 3 => 90 + leap
  | 4 => 120 + leap
  | 5 => 151 + leap
  | 6 => 181 + leap
  | 7 => 212 + leap
  | 8 => 243 + leap
  | 9 => 273 + leap
  | 10 => 304 + leap
  | _ => 334 + leap
  end.

Definition MonthFromTime (t : Z) : Z :=
  let d := DayWithinYear t in
  let leap := InLeapYear t in
  if d <? 31 then 0
  else if d <? 59 + leap then 1
  else if d <? 90 + leap then 2
  else if d <? 120 + leap then 3
  else if d <? 151 + leap then 4
  else if d <? 181 + leap then 5
  else if d <? 212 + leap then 6
  else if d <? 243 + leap then 7
  else if d <? 273 + leap then 8
  else if d <? 304 + leap then 9
  else if d <? 334 + leap then 10
  else 11.

Definition DateFromTime (t : Z) : Z :=
  DayWithinYear t - monthStart (MonthFromTime t) (InLeapYear t) + 1.

(** [MakeDay year month date]: months beyond 0..11 carry into the year,
    and [date] is an offset from the first of the month, so it may run
    past the end of the month. *)
Definition MakeDay (year month date : Z) : Z :=
  let ym := year + month / 12 in
  let mn := month mod 12 in
  let leap := if DaysInYear ym =? 366 then 1 else 0 in
  DayFromYear ym + monthStart mn leap + date - 1.

(** A [Date] object: its time value, [None] for an Invalid Date. *)
Definition t := option Z.

Definition getTime (d : t) : IntNum.t := d.

Definition getDate (d : t) : IntNum.t := option_map DateFromTime d.

Definition getUTCDate (d : t) : IntNum.t := option_map DateFromTime d.

Definition getUTCMonth (d : t) : IntNum.t := option_map MonthFromTime d.

(** [date.setDate(n)]: the day of the month is replaced, year and month
    kept; an Invalid Date or a [NaN] argument gives an Invalid Date. *)
Definition setDate (d : t) (n : IntNum.t) : t :=
  match d, n with
  | Some tv, Some dt => Some (MakeDay (YearFromTime tv) (MonthFromTime tv) dt)
  | _, _ => None
  end.

(** [new Date(ms)] from a number of days. *)
Definition ofTime (n : IntNum.t) : t := n.

End JSDate.

(** An independent count of civil days (proleptic Gregorian calendar,
    years starting in March), used to measure the distance between two
    displayed dates.  [m] is 1..12. *)
Definition daysFromCivil (y m d : Z) : Z :=
  let y' := if m <=? 2 then y - 1 else y in
  let era := y' / 400 in
  let yoe := y' - era * 400 in
  let mp := if 2 <? m then m - 3 else m + 9 in
  let doy := (153 * mp + 2) / 5 + d - 1 in
  let doe := yoe * 365 + yoe / 4 - yoe / 100 + doy in
  era * 146097 + doe - 719468.

(* ===================================================================== *)
(** ** Strings: [split] and the numeric conversions used on the tables *)
(* ===================================================================== *)

Module JSString.

Definition digit (c : ascii) : option Z :=
  let n := Z.of_N (N_of_ascii c) in
  if (48 <=? n) && (n <=? 57) then Some (n - 48) else None.

Fixpoint digitsValue (acc : Z) (cs : list ascii) : option Z :=
  match cs with
  | [] => Some acc
  | c :: cs' =>
      match digit c with
      | Some d => digitsValue (10 * acc + d) cs'
      | None => None
      end
  end.

(** [Number(s)] for the strings the tables hold: a run of decimal digits
    is its value and the empty string is 0; any other string is mapped to
    [NaN] (signs, fractions and exponents do not occur in the tables and
    have no [IntNum] value). *)
Definition Number (s : string) : IntNum.t :=
  digitsValue 0 (list_ascii_of_string s).

(** [s.split(sep)] for a one-character separator. *)
Fixpoint split_go (sep : ascii) (cur : list ascii) (cs : list ascii)
  : list string :=
  match cs with
  | [] => [string_of_list_ascii (rev cur)]
  | c :: cs' =>
      if Ascii.eqb c sep
      then string_of_list_ascii (rev cur) :: split_go sep [] cs'
      else split_go sep (c :: cur) cs'
  end.

Definition split (sep : ascii) (s : string) : list string :=
  split_go sep [] (list_ascii_of_string s).

(** Array destructuring and indexing: a missing element is [undefined],
    which is [NaN] once used in arithmetic. *)
Definition at_ (l : list IntNum.t) (i : nat) : IntNum.t :=
  nth i l IntNum.NaN.

(** The year, month and day of a string of the date-time form
    [YYYY-MM-DDT00:00:00], which is what the handlers build from a date
    picker's value.  Month 1..12 and day 1..31 are accepted; every other
    string has no fields. *)
Definition dateFields (s : string) : option (Z * Z * Z) :=
  if Nat.eqb (String.length s) 19
     && String.eqb (substring 4 1 s) "-"
     && String.eqb (substring 7 1 s) "-"
     && String.eqb (substring 10 9 s) "T00:00:00"
  then
    match Number (substring 0 4 s), Number (substring 5 2 s),
          Number (substring 8 2 s) with
    | Some y, Some m, Some d =>
        if (1 <=? m) && (m <=? 12) && (1 <=? d) && (d <=? 31)
        then Some (y, m, d)
        else None
    | _, _, _ => None
    end
  else None.

(** [new Date(s)]: local midnight of the day the fields name (a day past
    the end of the month rolls over through [MakeDay]); a string without
    fields gives an Invalid Date. *)
Definition parseDate (s : string) : JSDate.t :=
  match dateFields s with
  | Some (y, m, d) => Some (JSDate.MakeDay y (m - 1) d)
  | None => None
  end.

End JSString.

(* ===================================================================== *)
(** ** Measurements: binary64 numbers *)
(* ===================================================================== *)

Module Number.

Definition prec : Z := 53.
Definition emax : Z := 1024.

Definition t := spec_float.

Definition NaN : t := S754_nan.

(** The number with integer value [z] (rounded when beyond 2^53). *)
Definition ofZ (z : Z) : t := binary_normalize prec emax z 0 false.

Definition mul (x y : t) : t := SFmul prec emax x y.
Definition div (x y : t) : t := SFdiv prec emax x y.

(** A decimal literal [n/d] with [n] and [d] exact: the quotient is
    correctly rounded, so this is the binary64 value the literal denotes
    ([dec 105 100] is [1.05]). *)
Definition dec (n d : Z) : t := div (ofZ n) (ofZ d).

Definition lt (x y : t) : bool := SFltb x y.
Definition gt (x y : t) : bool := SFltb y x.
Definition le (x y : t) : bool := SFleb x y.

Definition isNaN (x : t) : bool :=
  match x with S754_nan => true | _ => false end.

(** [!x]: a number is falsy when it is [+0], [-0] or [NaN]. *)
Definition not (x : t) : bool :=
  match x with S754_zero _ | S754_nan => true | _ => false end.

(** [undefined] converts to [NaN]. *)
Definition ofValue (v : option t) : t :=
  match v with Some x => x | None => NaN end.

(** [Math.ceil]: the least integer not below [x], as a number.  A value
    with a non-negative exponent is an integer already; a negative value
    above -1 gives [-0]. *)
Definition ceil (x : t) : t :=
  match x with
  | S754_finite s m e =>
      if 0 <=? e then x
      else
        let p := 2 ^ (- e) in
        let n := if s then - (Z.pos m / p) else (Z.pos m + p - 1) / p in
        if n =? 0 then S754_zero s else binary_normalize prec emax n 0 false
  | _ => x
  end.

(** The integer a number denotes, when it is one. *)
Definition toZ (x : t) : option Z :=
  match x with
  | S754_zero _ => Some 0
  | S754_finite s m e =>
      if 0 <=? e then Some (cond_Zopp s (Z.pos m * 2 ^ e))
      else if Z.pos m mod 2 ^ (- e) =? 0
           then Some (cond_Zopp s (Z.pos m / 2 ^ (- e)))
           else None
  | _ => None
  end.

End Number.

(* ===================================================================== *)
(** ** What a handler produces *)
(* ===================================================================== *)

(** A handler either renders a result, or shows a message and returns
    early ([showError], [alert], [ui.showMessage] before [return]), or is
    ended by an exception nobody catches. *)
Inductive Outcome (A : Type) : Type :=
| Rendered (a : A)
| Rejected (message : string)
| Threw (error : string).

Arguments Rendered {A} a.
Arguments Rejected {A} message.
Arguments Threw {A} error.

Definition TypeError : string := "TypeError".

Definition isRejected {A : Type} (o : Outcome A) : bool :=
  match o with Rejected _ => true | _ => false end.

Definition isRendered {A : Type} (o : Outcome A) : bool :=
  match o with Rendered _ => true | _ => false end.

(** A [${...}] template: literal text and interpolated numbers
    ([None] is an interpolated [undefined]). *)
Inductive Piece : Type :=
| Lit (s : string)
| Val (x : option Number.t).

(* ===================================================================== *)
(** ** Reference data *)
(* ===================================================================== *)

(** An entry of [zoningData]: four ["MM-DD"] strings. *)
Record Region : Type := {
  preferential_start : string;
  preferential_end : string;
  tolerated_start : string;
  tolerated_end : string
}.

Module Ideal.

(** A range descriptor of a nutrient; an absent bound is [undefined]. *)
Record range : Type := { min : option Number.t; max : option Number.t }.

(** [soil] in [script.js], [ideal_soil_conditions] in [map.js]. *)
Record t : Type := {
  ph : range; v_percent : range; al_cmolc : range; p_ppm : range;
  k_ppm : range; ca_cmolc : range; mg_cmolc : range; s_ppm : range;
  b_ppm : range; zn_ppm : range; n_ppm : range
}.

End Ideal.

(** A variety.  [stages] is the [stages] object as [for ... in] and
    [Object.values] enumerate it: names in insertion order, each with its
    duration in days.  [target_population] is [population] in [script.js];
    [None] is a variety without that property. *)
Record Variety : Type := {
  name : string;
  stages : list (string * Z);
  target_population : option Number.t;
  ideal_soil_conditions : Ideal.t
}.

(* ===================================================================== *)
(** ** What the calculators render *)
(* ===================================================================== *)

(** [<span class="badge C">T</span>]. *)
Record Badge : Type := { badge_class : string; badge_text : string }.

(** One [<li>] of the development timeline. *)
Record StageLine : Type := {
  stageName : string;
  stageStart : option (Z * Z * Z);
  stageEnd : option (Z * Z * Z);
  stageDuration : Z
}.

(** What the cycle handler writes into the result element. *)
Record CycleResult : Type := {
  plantingSeason : Badge;
  cultivarName : string;
  totalCycleDays : Z;
  harvestDate : option (Z * Z * Z);
  timelineHTML : list StageLine
}.

(** The eleven measurements, each the result of [parseFloat] on its field
    ([NaN] for an empty field or text that does not start with a number). *)
Module Inputs.

Record t : Type := {
  ph : Number.t; v : Number.t; al : Number.t; p : Number.t; k : Number.t;
  ca : Number.t; mg : Number.t; s : Number.t; b : Number.t; zn : Number.t;
  n : Number.t
}.

(** [Object.values(inputs)], in the order the object literal lists them. *)
Definition values (i : t) : list Number.t :=
  [ph i; v i; al i; p i; k i; ca i; mg i; s i; b i; zn i; n i].

End Inputs.

(** The eleven nutrient keys of a measurement. *)
Inductive Nutrient : Type :=
| N_ph | N_v | N_al | N_p | N_k | N_ca | N_mg | N_s | N_b | N_zn | N_n.

Definition measured (key : Nutrient) (i : Inputs.t) : Number.t :=
  match key with
  | N_ph => Inputs.ph i | N_v => Inputs.v i | N_al => Inputs.al i
  | N_p => Inputs.p i | N_k => Inputs.k i | N_ca => Inputs.ca i
  | N_mg => Inputs.mg i | N_s => Inputs.s i | N_b => Inputs.b i
  | N_zn => Inputs.zn i | N_n => Inputs.n i
  end.

(** One [<li class="status">] of the soil report. *)
Record ReportLine : Type := {
  status : string;
  label : string;
  value : Number.t;
  unit_ : string;
  idealText : list Piece
}.

(* ===================================================================== *)
(** ** Code shared by the copies *)
(* ===================================================================== *)

(** [isBetween], the same function in [utils.js] and in [script.js]. *)
Definition isBetween (month day : IntNum.t) (start end_ : list IntNum.t) : bool :=
  let startMonth := JSString.at_ start 0 in
  let startDay := JSString.at_ start 1 in
  let endMonth := JSString.at_ end_ 0 in
  let endDay := JSString.at_ end_ 1 in
  let dateNum := IntNum.add (IntNum.mul month (Some 100)) day in
  let startNum := IntNum.add (IntNum.mul startMonth (Some 100)) startDay in
  let endNum := IntNum.add (IntNum.mul endMonth (Some 100)) endDay in
  if IntNum.gt startNum endNum
  then IntNum.ge dateNum startNum || IntNum.le dateNum endNum
  else IntNum.ge dateNum startNum && IntNum.le dateNum endNum.

(** [s.split('-').map(Number)]. *)
Definition splitMonthDay (s : string) : list IntNum.t :=
  map JSString.Number (JSString.split "-" s).

(** [Object.values(o)] of a [stages] object. *)
Definition Object_values {A : Type} (o : list (string * A)) : list A :=
  map snd o.

(** [Object.values(cultivar.stages).reduce((acc, days) => acc + days, 0)]. *)
Definition sumStages (o : list (string * Z)) : Z :=
  fold_left (fun acc days => acc + days) (Object_values o) 0.

(** [conditionFactor] after the two tests on the selected condition. *)
Definition conditionFactorOf (conditions : string) : Number.t :=
  let conditionFactor := Number.ofZ 1 in
  if String.eqb conditions "average" then Number.dec 105 100
  else if String.eqb conditions "poor" then Number.dec 110 100
  else conditionFactor.

(** [Math.ceil(seedsToBuy)], the number both copies render. *)
Definition seedsToBuyCeil (area population germinationRate : Number.t)
    (conditions : string) : Number.t :=
  let conditionFactor := conditionFactorOf conditions in
  let germinationFactor := Number.div (Number.ofZ 100) germinationRate in
  let seedsToBuy :=
    Number.mul
      (Number.mul (Number.mul area population) germinationFactor)
      conditionFactor in
  Number.ceil seedsToBuy.

(** [createReportLine] (the same closure in both copies; an omitted
    [isReversed] is falsy). *)
Definition createReportLine (label unit_ : string) (value : Number.t)
    (idealMin idealMax : option Number.t) (isReversed : bool) : ReportLine :=
  let status := "ok" in
  let idealText := [Lit "> "; Val idealMin] in
  let '(status, idealText) :=
    match idealMax with
    | Some _ =>
        let idealText := [Val idealMin; Lit " - "; Val idealMax] in
        let status :=
          if Number.lt value (Number.ofValue idealMin) then "low" else status in
        let status :=
          if Number.gt value (Number.ofValue idealMax) then "high" else status in
        (status, idealText)
    | None =>
        if isReversed then
          let status :=
            if Number.gt value (Number.ofValue idealMin) then "high" else status in
          (status, [Lit "< "; Val idealMin])
        else
          let status :=
            if Number.lt value (Number.ofValue idealMin) then "low" else status in
          (status, idealText)
    end in
  {| status := status; label := label; value := value; unit_ := unit_;
     idealText := idealText |}.

(** The eleven calls that build [reportHTML]. *)
Definition reportLines (inputs : Inputs.t) (ideal : Ideal.t) : list ReportLine :=
  [ createReportLine "pH (CaCl₂)" "" (Inputs.ph inputs)
      (Ideal.min (Ideal.ph ideal)) (Ideal.max (Ideal.ph ideal)) false;
    createReportLine "Base Saturation (V%)" "%" (Inputs.v inputs)
      (Ideal.min (Ideal.v_percent ideal)) None false;
    createReportLine "Aluminum (Al³⁺)" "cmolc" (Inputs.al inputs)
      (Ideal.max (Ideal.al_cmolc ideal)) None true;
    createReportLine "Phosphorus (P)" "ppm" (Inputs.p inputs)
      (Ideal.min (Ideal.p_ppm ideal)) None false;
    createReportLine "Potassium (K)" "ppm" (Inputs.k inputs)
      (Ideal.min (Ideal.k_ppm ideal)) None false;
    createReportLine "Calcium (Ca)" "cmolc" (Inputs.ca inputs)
      (Ideal.min (Ideal.ca_cmolc ideal)) None false;
    createReportLine "Magnesium (Mg)" "cmolc" (Inputs.mg inputs)
      (Ideal.min (Ideal.mg_cmolc ideal)) None false;
    createReportLine "Sulfur (S)" "ppm" (Inputs.s inputs)
      (Ideal.min (Ideal.s_ppm ideal)) None false;
    createReportLine "Boron (B)" "ppm" (Inputs.b inputs)
      (Ideal.min (Ideal.b_ppm ideal)) None false;
    createReportLine "Zinc (Zn)" "ppm" (Inputs.zn inputs)
      (Ideal.min (Ideal.zn_ppm ideal)) None false;
    createReportLine "Nitrogen (N)" "ppm" (Inputs.n inputs)
      (Ideal.min (Ideal.n_ppm ideal)) None false ].

(* ===================================================================== *)
(** ** [utils.js] *)
(* ===================================================================== *)

Module Utils.

(** [formatDate]: the year, the month (1..12) and the day that
    [toLocaleDateString] renders with [timeZone: 'UTC']; [None] is the text
    of an Invalid Date. *)
Definition formatDate (date : JSDate.t) : option (Z * Z * Z) :=
  match date with
  | Some tv =>
      Some (JSDate.YearFromTime tv, JSDate.MonthFromTime tv + 1,
            JSDate.DateFromTime tv)
  | None => None
  end.

(** An absent region is answered with a badge of its own. *)
Definition getPlantingSeason (month day : IntNum.t) (region : option Region)
  : Badge :=
  match region with
  | None =>
      {| badge_class := "not-recommended"; badge_text := "Region not selected" |}
  | Some r =>
      let prefStart := splitMonthDay (preferential_start r) in
      let prefEnd := splitMonthDay (preferential_end r) in
      if isBetween month day prefStart prefEnd
      then {| badge_class := "preferential"; badge_text := "Preferential Window" |}
      else
        let tolStart := splitMonthDay (tolerated_start r) in
        let tolEnd := splitMonthDay (tolerated_end r) in
        if isBetween month day tolStart tolEnd
        then {| badge_class := "tolerated"; badge_text := "Tolerated Window" |}
        else {| badge_class := "not-recommended"; badge_text := "Not Recommended" |}
  end.

End Utils.

(* ===================================================================== *)
(** ** The handlers of [docs/js/map.js] *)
(* ===================================================================== *)

Module MapJs.

(** Body of the [for (const stageName in cultivar.stages)] loop; the
    state is the list of lines written so far and [currentDate].  The
    stage's start is recomputed from the end, [86400000] ms being one
    day of the time value. *)
Definition stageStep (st : list StageLine * JSDate.t) (entry : string * Z)
  : list StageLine * JSDate.t :=
  let '(html, currentDate) := st in
  let '(stageName, stageDuration) := entry in
  let currentDate :=
    JSDate.setDate currentDate
      (IntNum.add (JSDate.getDate currentDate) (Some stageDuration)) in
  ((html ++ [ {| stageName := stageName;
                stageStart :=
                  Utils.formatDate
                    (JSDate.ofTime
                       (IntNum.add (JSDate.getTime currentDate)
                          (Some (- stageDuration))));
                stageEnd := Utils.formatDate currentDate;
                stageDuration := stageDuration |} ])%list,
   currentDate).

(** The inputs are the values of the variety select, the date input and
    the region select; no test of the parsed date is made here. *)
Definition handleCycleCalculation
    (varieties : gmap string Variety) (zoningData : gmap string Region)
    (varietyKey plantingDateStr regionKey : string) : Outcome CycleResult :=
  if String.eqb varietyKey "" || String.eqb plantingDateStr ""
     || String.eqb regionKey ""
  then Rejected "Please select a variety, region, and planting date."
  else
    let regionData := zoningData !! regionKey in
    let userDate := JSString.parseDate (plantingDateStr ++ "T00:00:00") in
    let userMonth := IntNum.add (JSDate.getUTCMonth userDate) (Some 1) in
    let userDay := JSDate.getUTCDate userDate in
    let plantingSeason := Utils.getPlantingSeason userMonth userDay regionData in
    match varieties !! varietyKey with
    | None => Threw TypeError
    | Some cultivar =>
        let totalCycleDays := sumStages (stages cultivar) in
        let '(html, currentDate) :=
          fold_left stageStep (stages cultivar) ([], userDate) in
        Rendered {| plantingSeason := plantingSeason;
                    cultivarName := name cultivar;
                    totalCycleDays := totalCycleDays;
                    harvestDate := Utils.formatDate currentDate;
                    timelineHTML := html |}
    end.

(** [area] and [germinationRate] are the results of [parseFloat] on the
    two fields. *)
Definition handleSowingCalculation (varieties : gmap string Variety)
    (area : Number.t) (varietyKey : string) (germinationRate : Number.t)
    (conditions : string) : Outcome Number.t :=
  if Number.not area || String.eqb varietyKey "" || Number.not germinationRate
  then Rejected "Please fill in all fields correctly."
  else
    match varieties !! varietyKey with
    | None => Threw TypeError
    | Some cultivar =>
        Rendered (seedsToBuyCeil area
                    (Number.ofValue (target_population cultivar))
                    germinationRate conditions)
    end.

(** The variety key is tested first, then the eleven numbers. *)
Definition handleSoilAnalysis (varieties : gmap string Variety)
    (varietyKey : string) (inputs : Inputs.t) : Outcome (list ReportLine) :=
  if String.eqb varietyKey ""
  then Rejected "Please select a reference variety."
  else if existsb Number.isNaN (Inputs.values inputs)
  then Rejected "Please fill all fields with valid numbers."
  else
    match varieties !! varietyKey with
    | None => Threw TypeError
    | Some cultivar => Rendered (reportLines inputs (ideal_soil_conditions cultivar))
    end.

End MapJs.

(* ===================================================================== *)
(** ** The handlers of [script.js] *)
(* ===================================================================== *)

Module Script.

(** Same fields as [Utils.formatDate]; only the locale of the rendered
    text differs (["en-US"] with a short month name). *)
Definition formatDate (date : JSDate.t) : option (Z * Z * Z) :=
  Utils.formatDate date.

(** The copy in [script.js] has no guard: destructuring an [undefined]
    region throws. *)
Definition getPlantingSeason (month day : IntNum.t) (region : option Region)
  : Outcome Badge :=
  match region with
  | None => Threw TypeError
  | Some r =>
      let prefStart := splitMonthDay (preferential_start r) in
      let prefEnd := splitMonthDay (preferential_end r) in
      if isBetween month day prefStart prefEnd
      then Rendered {| badge_class := "preferential";
                       badge_text := "Preferential planting window" |}
      else
        let tolStart := splitMonthDay (tolerated_start r) in
        let tolEnd := splitMonthDay (tolerated_end r) in
        if isBetween month day tolStart tolEnd
        then Rendered {| badge_class := "tolerated";
                         badge_text := "Tolerated planting window" |}
        else Rendered {| badge_class := "not-recommended";
                         badge_text := "Not Recommended planting window" |}
  end.

(** Body of the loop in [script.js]: the stage's start is a copy of
    [currentDate] taken before it is advanced. *)
Definition stageStep (st : list StageLine * JSDate.t) (entry : string * Z)
  : list StageLine * JSDate.t :=
  let '(html, currentDate) := st in
  let '(stageName, stageDuration) := entry in
  let stageStartDate := currentDate in
  let currentDate :=
    JSDate.setDate currentDate
      (IntNum.add (JSDate.getDate currentDate) (Some stageDuration)) in
  let stageEndDate := currentDate in
  ((html ++ [ {| stageName := stageName;
                stageStart := Script.formatDate stageStartDate;
                stageEnd := Script.formatDate stageEndDate;
                stageDuration := stageDuration |} ])%list,
   currentDate).

(** The click handler of [calculateButton]. *)
Definition calculateButton_click
    (cottonVarieties : gmap string Variety) (zoningData : gmap string Region)
    (currentRegion : string) (plantingDateStr selectedVarietyKey : string)
  : Outcome CycleResult :=
  if String.eqb plantingDateStr "" || String.eqb selectedVarietyKey ""
  then Rejected "Please select a variety and a planting date."
  else
    let regionData := zoningData !! currentRegion in
    let userDate := JSString.parseDate (plantingDateStr ++ "T00:00:00") in
    match JSDate.getTime userDate with
    | None => Rejected "Invalid planting date. Please use the date picker."
    | Some _ =>
        let userMonth := IntNum.add (JSDate.getUTCMonth userDate) (Some 1) in
        let userDay := JSDate.getUTCDate userDate in
        match Script.getPlantingSeason userMonth userDay regionData with
        | Threw e => Threw e
        | Rejected m => Rejected m
        | Rendered plantingSeason =>
            match cottonVarieties !! selectedVarietyKey with
            | None => Threw TypeError
            | Some cultivar =>
                let totalCycleDays := sumStages (stages cultivar) in
                let '(html, currentDate) :=
                  fold_left stageStep (stages cultivar) ([], userDate) in
                Rendered {| plantingSeason := plantingSeason;
                            cultivarName := name cultivar;
                            totalCycleDays := totalCycleDays;
                            harvestDate := Script.formatDate currentDate;
                            timelineHTML := html |}
            end
        end
    end.

(** The click handler of [calculateSowingBtn]: the same steps as in
    [map.js], the message shown through [showError]. *)
Definition calculateSowingBtn_click (cottonVarieties : gmap string Variety)
    (area : Number.t) (varietyKey : string) (germinationRate : Number.t)
    (conditions : string) : Outcome Number.t :=
  if Number.not area || String.eqb varietyKey "" || Number.not germinationRate
  then Rejected "Please fill in all fields correctly."
  else
    match cottonVarieties !! varietyKey with
    | None => Threw TypeError
    | Some cultivar =>
        Rendered (seedsToBuyCeil area
                    (Number.ofValue (target_population cultivar))
                    germinationRate conditions)
    end.

(** The click handler of [analyzeSoilBtn]. *)
Definition analyzeSoilBtn_click (cottonVarieties : gmap string Variety)
    (varietyKey : string) (inputs : Inputs.t) : Outcome (list ReportLine) :=
  if String.eqb varietyKey "" || existsb Number.isNaN (Inputs.values inputs)
  then Rejected "Please select a variety and enter valid values in all fields."
  else
    match cottonVarieties !! varietyKey with
    | None => Threw TypeError
    | Some cultivar => Rendered (reportLines inputs (ideal_soil_conditions cultivar))
    end.

End Script.

(** Distance in civil days between two displayed dates. *)
Definition daysBetween (d1 d2 : Z * Z * Z) : Z :=
  let '(y1, m1, a1) := d1 in
  let '(y2, m2, a2) := d2 in
  daysFromCivil y2 m2 a2 - daysFromCivil y1 m1 a1.

(* ===================================================================== *)
(** ** The tables of [script.js] *)
(* ===================================================================== *)

Definition only_min (n d : Z) : Ideal.range :=
  {| Ideal.min := Some (Number.dec n d); Ideal.max := None |}.

Definition only_max (n d : Z) : Ideal.range :=
  {| Ideal.min := None; Ideal.max := Some (Number.dec n d) |}.

Definition tmg_84_b3xf : Variety := {|
  name := "TMG 84 B3XF";
  stages := [ ("Emergence to First Square (V0 to B1/B3)", 35);
              ("First Square to First Flower (B1/B3 to F1)", 25);
              ("Flowering Period (F1 to FN)", 40);
              ("Boll Development & Maturation (C1 to CN)", 50) ];
  target_population := Some (Number.ofZ 110000);
  ideal_soil_conditions := {|
    Ideal.ph := {| Ideal.min := Some (Number.dec 60 10);
                   Ideal.max := Some (Number.dec 65 10) |};
    Ideal.v_percent := only_min 60 1;
    Ideal.al_cmolc := only_max 3 10;
    Ideal.p_ppm := only_min 20 1;
    Ideal.k_ppm := only_min 150 1;
    Ideal.ca_cmolc := only_min 25 10;
    Ideal.mg_cmolc := only_min 8 10;
    Ideal.s_ppm := only_min 10 1;
    Ideal.b_ppm := only_min 5 10;
    Ideal.zn_ppm := only_min 12 10;
    Ideal.n_ppm := only_min 100 1 |}
|}.

Definition brs_433 : Variety := {|
  name := "BRS 433";
  stages := [ ("Emergence to First Square (V0 to B1/B3)", 30);
              ("First Square to First Flower (B1/B3 to F1)", 25);
              ("Flowering Period (F1 to FN)", 40);
              ("Boll Development & Maturation (C1 to CN)", 45) ];
  target_population := Some (Number.ofZ 100000);
  ideal_soil_conditions := {|
    Ideal.ph := {| Ideal.min := Some (Number.dec 58 10);
                   Ideal.max := Some (Number.dec 65 10) |};
    Ideal.v_percent := only_min 60 1;
    Ideal.al_cmolc := only_max 3 10;
    Ideal.p_ppm := only_min 25 1;
    Ideal.k_ppm := only_min 120 1;
    Ideal.ca_cmolc := only_min 20 10;
    Ideal.mg_cmolc := only_min 8 10;
    Ideal.s_ppm := only_min 10 1;
    Ideal.b_ppm := only_min 6 10;
    Ideal.zn_ppm := only_min 14 10;
    Ideal.n_ppm := only_min 120 1 |}
|}.

Definition cottonVarieties : gmap string Variety :=
  <["tmg 84 b3xf" := tmg_84_b3xf]> (<["brs 433" := brs_433]> ∅).

Definition mkRegion (ps pe ts te : string) : Region :=
  {| preferential_start := ps; preferential_end := pe;
     tolerated_start := ts; tolerated_end := te |}.

Definition zoningData : gmap string Region :=
  <["mt-south" := mkRegion "01-01" "01-31" "12-15" "02-15"]>
  (<["mt-mid-north" := mkRegion "01-01" "01-31" "12-15" "02-15"]>
  (<["mt-west" := mkRegion "01-01" "01-31" "12-15" "01-31"]>
  (<["mt-araguaia-valley" := mkRegion "01-01" "01-20" "12-15" "01-31"]>
  (<["ba-rainfed" := mkRegion "12-15" "12-31" "12-01" "01-15"]>
  (<["ba-irrigated" := mkRegion "01-01" "02-15" "12-15" "02-28"]>
  (<["go-ms" := mkRegion "12-15" "01-15" "12-01" "01-31"]>
  (<["mg-sp" := mkRegion "12-15" "01-15" "12-01" "01-31"]>
  (<["ma-pi-1st" := mkRegion "12-15" "01-15" "12-01" "01-31"]>
  (<["ma-pi-2nd" := mkRegion "01-15" "02-10" "01-01" "02-20"]> ∅))))))))).

(* ===================================================================== *)
(** ** The specification's vocabulary *)
(* ===================================================================== *)

(** The sum of the durations, written as a recursion on the stages. *)
Fixpoint durationSum (o : list (string * Z)) : Z :=
  match o with
  | [] => 0
  | (_, days) :: rest => days + durationSum rest
  end.

(** The stages of the specification's timeline example, and a variety
    that has them. *)
Definition exampleStages : list (string * Z) :=
  [("A", 35); ("B", 25); ("C", 40); ("D", 50)].

Definition exampleVariety : Variety := {|
  name := "Example";
  stages := exampleStages;
  target_population := Some (Number.ofZ 110000);
  ideal_soil_conditions := ideal_soil_conditions tmg_84_b3xf
|}.

(** The timeline the example produces: four lines, each stage starting on
    the day the previous one ends. *)
Definition exampleTimeline : list StageLine :=
  [ {| stageName := "A"; stageStart := Some (2025, 1, 1);
       stageEnd := Some (2025, 2, 5); stageDuration := 35 |};
    {| stageName := "B"; stageStart := Some (2025, 2, 5);
       stageEnd := Some (2025, 3, 2); stageDuration := 25 |};
    {| stageName := "C"; stageStart := Some (2025, 3, 2);
       stageEnd := Some (2025, 4, 11); stageDuration := 40 |};
    {| stageName := "D"; stageStart := Some (2025, 4, 11);
       stageEnd := Some (2025, 5, 31); stageDuration := 50 |} ].

(** A variety whose [stages] object has no property. *)
Definition emptyVariety : Variety := {|
  name := "Empty";
  stages := [];
  target_population := Some (Number.ofZ 110000);
  ideal_soil_conditions := ideal_soil_conditions tmg_84_b3xf
|}.

(** The three categories of a planting date, and the badge each copy of
    the classifier renders for a category. *)
Inductive Category : Type := Preferential | Tolerated | NotRecommended.

Definition utilsBadge (c : Category) : Badge :=
  match c with
  | Preferential =>
      {| badge_class := "preferential"; badge_text := "Preferential Window" |}
  | Tolerated =>
      {| badge_class := "tolerated"; badge_text := "Tolerated Window" |}
  | NotRecommended =>
      {| badge_class := "not-recommended"; badge_text := "Not Recommended" |}
  end.

Definition scriptBadge (c : Category) : Badge :=
  match c with
  | Preferential =>
      {| badge_class := "preferential";
         badge_text := "Preferential planting window" |}
  | Tolerated =>
      {| badge_class := "tolerated"; badge_text := "Tolerated planting window" |}
  | NotRecommended =>
      {| badge_class := "not-recommended";
         badge_text := "Not Recommended planting window" |}
  end.

(** A region calendar as the specification has it: four (month, day)
    pairs. *)
Record Calendar : Type := {
  preferentialStart : Z * Z;
  preferentialEnd : Z * Z;
  toleratedStart : Z * Z;
  toleratedEnd : Z * Z
}.

(** The specification's encoding of a date, [month * 100 + day]. *)
Definition encode (md : Z * Z) : Z := fst md * 100 + snd md.

(** The specification's window test on encoded dates. *)
Definition insideWindow (date : Z) (start end_ : Z * Z) : bool :=
  if encode start <=? encode end_
  then (encode start <=? date) && (date <=? encode end_)
  else (encode start <=? date) || (date <=? encode end_).

(** A table entry [r] reads as the calendar [c]: each of its strings
    splits into the numbers of the corresponding pair. *)
Definition readsAs (s : string) (md : Z * Z) : Prop :=
  splitMonthDay s = [Some (fst md); Some (snd md)].

Definition reads (r : Region) (c : Calendar) : Prop :=
  readsAs (preferential_start r) (preferentialStart c)
  /\ readsAs (preferential_end r) (preferentialEnd c)
  /\ readsAs (tolerated_start r) (toleratedStart c)
  /\ readsAs (tolerated_end r) (toleratedEnd c).

(** [result] is the badge of the category the specification assigns to
    the encoded [date] under [c]: preferential first, then tolerated. *)
Definition classifies (badgeOf : Category -> Badge) (result : Badge)
    (date : Z) (c : Calendar) : Prop :=
  (result = badgeOf Preferential
   <-> insideWindow date (preferentialStart c) (preferentialEnd c) = true)
  /\ (result = badgeOf Tolerated
      <-> insideWindow date (preferentialStart c) (preferentialEnd c) = false
          /\ insideWindow date (toleratedStart c) (toleratedEnd c) = true)
  /\ (result = badgeOf NotRecommended
      <-> insideWindow date (preferentialStart c) (preferentialEnd c) = false
          /\ insideWindow date (toleratedStart c) (toleratedEnd c) = false).

(** The ["MM-DD"] string of a (month, day) pair, and the table entry of a
    calendar. *)
Definition twoDigits (n : Z) : string :=
  String (ascii_of_N (Z.to_N (48 + n / 10)))
    (String (ascii_of_N (Z.to_N (48 + n mod 10))) EmptyString).

Definition monthDayString (md : Z * Z) : string :=
  (twoDigits (fst md) ++ "-" ++ twoDigits (snd md))%string.

Definition regionOf (c : Calendar) : Region :=
  mkRegion (monthDayString (preferentialStart c))
    (monthDayString (preferentialEnd c))
    (monthDayString (toleratedStart c))
    (monthDayString (toleratedEnd c)).

Definition validMonthDay (md : Z * Z) : Prop :=
  1 <= fst md <= 12 /\ 1 <= snd md <= 31.

(** A calendar whose tolerated window runs from 15 December to 31
    January and whose preferential window lies in February. *)
Definition wrapCalendar : Calendar := {|
  preferentialStart := (2, 1);
  preferentialEnd := (2, 10);
  toleratedStart := (12, 15);
  toleratedEnd := (1, 31)
|}.

(** The field conditions of the specification, the value each has in the
    [field-conditions] select, and the factor the specification gives it. *)
Inductive FieldCondition : Type := Good | Average | Poor.

Definition conditionValue (fc : FieldCondition) : string :=
  match fc with Good => "good" | Average => "average" | Poor => "poor" end.

Definition specConditionFactor (fc : FieldCondition) : Number.t :=
  match fc with
  | Good => Number.dec 100 100
  | Average => Number.dec 105 100
  | Poor => Number.dec 110 100
  end.

(** The specification's seed count,
    [ceil(area * targetPopulation * (100 / germinationRate) * factor)],
    the products taken from left to right. *)
Definition specSeedCount (area population germinationRate : Number.t)
    (fc : FieldCondition) : Number.t :=
  Number.ceil
    (Number.mul
       (Number.mul (Number.mul area population)
          (Number.div (Number.ofZ 100) germinationRate))
       (specConditionFactor fc)).

(** The badge [utils.js] renders for an absent region. *)
Definition regionNotSelected : Badge :=
  {| badge_class := "not-recommended"; badge_text := "Region not selected" |}.

(** A variety whose record has no target population. *)
Definition noPopulationVariety : Variety := {|
  name := "No population";
  stages := stages tmg_84_b3xf;
  target_population := None;
  ideal_soil_conditions := ideal_soil_conditions tmg_84_b3xf
|}.

(** The message both copies of the sowing handler reject with. *)
Definition fillAllFields : string := "Please fill in all fields correctly.".

(** The measurements of a sample, and the same sample with the field of
    one nutrient left empty. *)
Definition sampleInputs : Inputs.t := {|
  Inputs.ph := Number.dec 62 10; Inputs.v := Number.ofZ 65;
  Inputs.al := Number.dec 2 10; Inputs.p := Number.ofZ 22;
  Inputs.k := Number.ofZ 160; Inputs.ca := Number.ofZ 3;
  Inputs.mg := Number.ofZ 1; Inputs.s := Number.ofZ 12;
  Inputs.b := Number.dec 6 10; Inputs.zn := Number.dec 15 10;
  Inputs.n := Number.ofZ 110
|}.

Definition withoutZinc : Inputs.t := {|
  Inputs.ph := Inputs.ph sampleInputs; Inputs.v := Inputs.v sampleInputs;
  Inputs.al := Inputs.al sampleInputs; Inputs.p := Inputs.p sampleInputs;
  Inputs.k := Inputs.k sampleInputs; Inputs.ca := Inputs.ca sampleInputs;
  Inputs.mg := Inputs.mg sampleInputs; Inputs.s := Inputs.s sampleInputs;
  Inputs.b := Inputs.b sampleInputs; Inputs.zn := Number.NaN;
  Inputs.n := Inputs.n sampleInputs
|}.

(** The number of days of month [m] (1..12) of year [y]. *)
Definition daysInMonth (y m : Z) : Z :=
  match m with
  | 2 => if JSDate.DaysInYear y =? 366 then 29 else 28
  | 4 | 6 | 9 | 11 => 30
  | _ => 31
  end.

(* ===================================================================== *)
(** ** Drawing a field on the map ([map.js], both copies) *)
(* ===================================================================== *)

(** [docs/js/map.js] holds the map service twice.  Of Leaflet the model
    keeps what the drawing code observes: a feature group is the list of
    its layers in the order they were added, a marker is its position and
    a polygon its vertices.  [turf.area] is a parameter of the model.  The
    [mapchange] events are delivered as they are dispatched; their
    listener, in [main.js], stores the area they carry in
    [state.currentMapArea]. *)

(** [L.LatLng]. *)
Record LatLng : Type := { lat : Number.t; lng : Number.t }.

(** A layer of the [polygonLayer] group: the marker of a click or the
    polygon that previews the field. *)
Inductive Layer : Type :=
| Marker (latlng : LatLng)
| Polygon (latLngs : list LatLng).

(** [layer instanceof L.Polygon] and [layer instanceof L.Marker]. *)
Definition isPolygon (layer : Layer) : bool :=
  match layer with Polygon _ => true | Marker _ => false end.

Definition isMarker (layer : Layer) : bool :=
  match layer with Marker _ => true | Polygon _ => false end.

(** A GeoJSON geometry [{ type, coordinates }]; a position is the array
    [[lng, lat]]. *)
Record Geometry : Type := {
  type_ : string;
  coordinates : list (list (Number.t * Number.t))
}.

(** The [detail.area] of a [mapchange] event. *)
Record Area : Type := { squareMeters : Number.t; hectares : Number.t }.

(** The module state of [map.js] that drawing touches.  [polygonPoints]
    holds the positions of the markers pushed to it, [polygonLayer] the
    layers of the group in the order they were added, and [mapchange] the
    areas of the events dispatched so far, oldest first. *)
Record Drawing : Type := {
  polygonPoints : list LatLng;
  polygonLayer : list Layer;
  mapchange : list Area
}.

(** The state right after [initializeMap]. *)
Definition emptyDrawing : Drawing :=
  {| polygonPoints := []; polygonLayer := []; mapchange := [] |}.

Definition zeroArea : Area :=
  {| squareMeters := Number.ofZ 0; hectares := Number.ofZ 0 |}.

(** [state.currentMapArea]: it starts as the zero area and the listener of
    [main.js] stores the area of every [mapchange] event in it. *)
Definition currentMapArea (d : Drawing) : Area :=
  List.last (mapchange d) zeroArea.

(** [getPolygonGeometry], the same in both copies.  The test leaves at
    least three points, so [coordinates[0]] is there to close the ring. *)
Definition getPolygonGeometry (d : Drawing) : option Geometry :=
  if (length (polygonPoints d) <? 3)%nat then None
  else
    let coordinates := map (fun p => (lng p, lat p)) (polygonPoints d) in
    let coordinates := (coordinates ++ firstn 1 coordinates)%list in
    Some {| type_ := "Polygon"; coordinates := [coordinates] |}.

(** [clearDrawing], the same in both copies. *)
Definition clearDrawing (d : Drawing) : Drawing :=
  {| polygonPoints := [];
     polygonLayer := [];
     mapchange := (mapchange d ++ [zeroArea])%list |}.

(** A click on the map or a press on the clear button. *)
Inductive DrawOp : Type :=
| Click (latlng : LatLng)
| Clear.

Section Turf.

(** [turf.area], applied to what [getPolygonGeometry] returned. *)
Variable turf_area : option Geometry -> Number.t.

(** The area object that [addPolygonMarker] puts into its event. *)
Definition areaOf (d : Drawing) : Area :=
  let turfPolygon := getPolygonGeometry d in
  let areaInSqMeters := turf_area turfPolygon in
  let areaInHectares := Number.div areaInSqMeters (Number.ofZ 10000) in
  {| squareMeters := areaInSqMeters; hectares := areaInHectares |}.

(** The steps of [addPolygonMarker] after [updatePolygon], the same in
    both copies: with three points or more an event carries the area. *)
Definition dispatchArea (d : Drawing) : Drawing :=
  if (3 <=? length (polygonPoints d))%nat
  then {| polygonPoints := polygonPoints d;
          polygonLayer := polygonLayer d;
          mapchange := (mapchange d ++ [areaOf d])%list |}
  else d.

End Turf.

(** The first copy in the file, "Map Service v2.5". *)
Module MapV25.

(** Every polygon is removed from the group; from two points on a new
    one is added. *)
Definition updatePolygon (d : Drawing) : Drawing :=
  let layers := List.filter (fun layer => negb (isPolygon layer)) (polygonLayer d) in
  let layers :=
    if (2 <=? length (polygonPoints d))%nat
    then (layers ++ [Polygon (polygonPoints d)])%list
    else layers in
  {| polygonPoints := polygonPoints d; polygonLayer := layers;
     mapchange := mapchange d |}.

Definition addPolygonMarker (turf_area : option Geometry -> Number.t)
    (d : Drawing) (latlng : LatLng) : Drawing :=
  let d := {| polygonPoints := (polygonPoints d ++ [latlng])%list;
              polygonLayer := (polygonLayer d ++ [Marker latlng])%list;
              mapchange := mapchange d |} in
  dispatchArea turf_area (updatePolygon d).


End MapV25.

(** The second copy in the file, "Map Service". *)
Module MapService.

(** The layers that are not markers are removed when the group holds
    more layers than there are points; from three points on a polygon
    is added. *)
Definition updatePolygon (d : Drawing) : Drawing :=
  let layers :=
    if (length (polygonPoints d) <? length (polygonLayer d))%nat
    then List.filter isMarker (polygonLayer d)
    else polygonLayer d in
  let layers :=
    if (3 <=? length (polygonPoints d))%nat
    then (layers ++ [Polygon (polygonPoints d)])%list
    else layers in
  {| polygonPoints := polygonPoints d; polygonLayer := layers;
     mapchange := mapchange d |}.

Definition addPolygonMarker (turf_area : option Geometry -> Number.t)
    (d : Drawing) (latlng : LatLng) : Drawing :=
  let d := {| polygonPoints := (polygonPoints d ++ [latlng])%list;
              polygonLayer := (polygonLayer d ++ [Marker latlng])%list;
              mapchange := mapchange d |} in
  dispatchArea turf_area (updatePolygon d).


End MapService.

(** Which of the two copies of [map.js] is the one loaded. *)
Inductive MapCopy : Type := V25 | Service.

Definition map_addPolygonMarker (copy : MapCopy)
    (turf_area : option Geometry -> Number.t) : Drawing -> LatLng -> Drawing :=
  match copy with
  | V25 => MapV25.addPolygonMarker turf_area
  | Service => MapService.addPolygonMarker turf_area
  end.

(** The number of points from which [updatePolygon] draws the polygon. *)
Definition polygonFrom (copy : MapCopy) : nat :=
  match copy with V25 => 2%nat | Service => 3%nat end.

Definition drawStep (copy : MapCopy) (turf_area : option Geometry -> Number.t)
    (d : Drawing) (op : DrawOp) : Drawing :=
  match op with
  | Click latlng => map_addPolygonMarker copy turf_area d latlng
  | Clear => clearDrawing d
  end.

Definition drawRun (copy : MapCopy) (turf_area : option Geometry -> Number.t)
    (d : Drawing) (ops : list DrawOp) : Drawing :=
  fold_left (drawStep copy turf_area) ops d.

(** What [handleSaveField] hands to [api.saveField]. *)
Record FieldData : Type := {
  field_name : string;
  geometry : option Geometry;
  area_hectares : Number.t
}.

(** The message of [handleSaveField]. *)
Definition nameAndPointsRequired : string :=
  "Field name and at least 3 points on the map are required.".

(** [handleSaveField] up to its call of the API: the message it shows and
    returns on, or the field data it sends.  [trim] is
    [String.prototype.trim] and [fieldNameInput] the value of the name
    field. *)
Definition handleSaveField (trim : string -> string)
    (fieldNameInput : string) (d : Drawing) : Outcome FieldData :=
  let fieldName := trim fieldNameInput in
  let geometry := getPolygonGeometry d in
  if String.eqb fieldName ""
     || match geometry with None => true | Some _ => false end
  then Rejected nameAndPointsRequired
  else Rendered {| field_name := fieldName;
                   geometry := geometry;
                   area_hectares := hectares (currentMapArea d) |}.

(** The vocabulary of the properties of drawing. *)

(** The layers of a drawing with [points]: their markers in the order of
    the clicks, then one polygon through all of them once there are
    [enough]. *)
Definition layersOf (enough : nat) (points : list LatLng) : list Layer :=
  (map Marker points
   ++ if (enough <=? length points)%nat then [Polygon points] else [])%list.

(** The ring of a list of points: their [[lng, lat]] positions in order,
    closed by the first. *)
Definition ringOf (points : list LatLng) : list (Number.t * Number.t) :=
  match points with
  | [] => []
  | p :: _ => (map (fun q => (lng q, lat q)) points ++ [(lng p, lat p)])%list
  end.

(** Three corners of a plot, and an area function for the examples. *)
Definition cornerA : LatLng := {| lat := Number.dec (-1425) 100; lng := Number.dec (-5190) 100 |}.
Definition cornerB : LatLng := {| lat := Number.dec (-1425) 100; lng := Number.dec (-5180) 100 |}.
Definition cornerC : LatLng := {| lat := Number.dec (-1435) 100; lng := Number.dec (-5180) 100 |}.

Definition countingArea (g : option Geometry) : Number.t :=
  match g with
  | Some g => Number.ofZ (Z.of_nat (length (concat (coordinates g))))
  | None => Number.NaN
  end.

(** The points of the drawing after a series of clicks and clears: the
    clicks since the last clear, in their order. *)
Definition pointsAfter (start : list LatLng) (ops : list DrawOp) : list LatLng :=
  fold_left (fun points op =>
               match op with
               | Click latlng => (points ++ [latlng])%list
               | Clear => []
               end) ops start.

(** The area that the page should show for a drawing: the area of its
    geometry from three points on, zero before. *)
Definition shownArea (turf_area : option Geometry -> Number.t) (d : Drawing) : Area :=
  if (3 <=? length (polygonPoints d))%nat then areaOf turf_area d else zeroArea.

(** What every drawing keeps: the layers are those of its points, and the
    area stored on the page is the one to show. *)
Definition drawingKept (copy : MapCopy) (turf_area : option Geometry -> Number.t)
    (d : Drawing) : Prop :=
  polygonLayer d = layersOf (polygonFrom copy) (polygonPoints d)
  /\ currentMapArea d = shownArea turf_area d.

(* ===================================================================== *)
(** ** The map view ([handlers.js]) *)
(* ===================================================================== *)

(** The handlers that create fields and plants.  A handler that calls
    the API is modelled up to the call: it shows a message and returns, or
    hands the data to the API.  What follows the answer of the API is an
    event of its own. *)

(** [state.currentMapMode]: ['view'], ['create-field'], ['create-plant']. *)
Inductive MapMode : Type := view | create_field | create_plant.

Definition MapMode_eqb (a b : MapMode) : bool :=
  match a, b with
  | view, view | create_field, create_field | create_plant, create_plant => true
  | _, _ => false
  end.

(** The state that the handlers of field and plant creation read and
    write: [state.currentMapMode] and [state.currentPlantLocation], the
    position of [tempPlantMarker], the drawing, the [disabled] property of
    [plantTypeSelect] (which [plantTagInput] and [generateTagBtn] share at
    every assignment) and the [hidden] class of the two groups of creation
    controls. *)
Record MapView : Type := {
  currentMapMode : MapMode;
  currentPlantLocation : option LatLng;
  tempPlantMarker : option LatLng;
  drawing : Drawing;
  plantTypeSelectDisabled : bool;
  fieldCreationControlsHidden : bool;
  plantCreationControlsHidden : bool
}.

Definition enterAddFieldMode (s : MapView) : MapView :=
  {| currentMapMode := create_field;
     currentPlantLocation := currentPlantLocation s;
     tempPlantMarker := tempPlantMarker s;
     drawing := drawing s;
     plantTypeSelectDisabled := plantTypeSelectDisabled s;
     fieldCreationControlsHidden := false;
     plantCreationControlsHidden := true |}.

Definition enterAddPlantMode (s : MapView) : MapView :=
  {| currentMapMode := create_plant;
     currentPlantLocation := currentPlantLocation s;
     tempPlantMarker := tempPlantMarker s;
     drawing := drawing s;
     plantTypeSelectDisabled := plantTypeSelectDisabled s;
     fieldCreationControlsHidden := true;
     plantCreationControlsHidden := false |}.

Definition exitCreationMode (s : MapView) : MapView :=
  {| currentMapMode := view;
     currentPlantLocation := None;
     tempPlantMarker := None;
     drawing := clearDrawing (drawing s);
     plantTypeSelectDisabled := true;
     fieldCreationControlsHidden := true;
     plantCreationControlsHidden := true |}.

Definition setPlantLocation (latlng : LatLng) (s : MapView) : MapView :=
  if negb (MapMode_eqb (currentMapMode s) create_plant) then s
  else
    {| currentMapMode := currentMapMode s;
       currentPlantLocation := Some {| lat := lat latlng; lng := lng latlng |};
       tempPlantMarker := Some latlng;
       drawing := drawing s;
       plantTypeSelectDisabled := false;
       fieldCreationControlsHidden := fieldCreationControlsHidden s;
       plantCreationControlsHidden := plantCreationControlsHidden s |}.

Definition withDrawing (d : Drawing) (s : MapView) : MapView :=
  {| currentMapMode := currentMapMode s;
     currentPlantLocation := currentPlantLocation s;
     tempPlantMarker := tempPlantMarker s;
     drawing := d;
     plantTypeSelectDisabled := plantTypeSelectDisabled s;
     fieldCreationControlsHidden := fieldCreationControlsHidden s;
     plantCreationControlsHidden := plantCreationControlsHidden s |}.

Definition handleMapClick (copy : MapCopy)
    (turf_area : option Geometry -> Number.t) (latlng : LatLng)
    (s : MapView) : MapView :=
  if MapMode_eqb (currentMapMode s) create_field
  then withDrawing (map_addPolygonMarker copy turf_area (drawing s) latlng) s
  else if MapMode_eqb (currentMapMode s) create_plant
  then setPlantLocation latlng s
  else s.

(** What happens on the map view, as [main.js] wires it. *)
Inductive MapEvent : Type :=
| MapClick (latlng : LatLng)
    (* a click on the map: handleMapClick *)
| EnterAddField
    (* enterAddFieldModeBtn *)
| EnterAddPlant
    (* enterAddPlantModeBtn *)
| ExitCreation
    (* a cancel button, a field or plant saved, the map view opened again *)
| ClearMap
    (* clearMapBtn: map.clearDrawing *)
| GpsPosition (latitude longitude : Number.t).
    (* the position that handleUseGps asked for *)

Definition mapStep (copy : MapCopy) (turf_area : option Geometry -> Number.t)
    (s : MapView) (e : MapEvent) : MapView :=
  match e with
  | MapClick latlng => handleMapClick copy turf_area latlng s
  | EnterAddField => enterAddFieldMode s
  | EnterAddPlant => enterAddPlantMode s
  | ExitCreation => exitCreationMode s
  | ClearMap => withDrawing (clearDrawing (drawing s)) s
  | GpsPosition latitude longitude =>
      setPlantLocation {| lat := latitude; lng := longitude |} s
  end.

(** The map view is opened with [exitCreationMode]; then events follow. *)
Definition mapRun (copy : MapCopy) (turf_area : option Geometry -> Number.t)
    (s0 : MapView) (events : list MapEvent) : MapView :=
  fold_left (mapStep copy turf_area) events (exitCreationMode s0).

(** What [handleSavePlant] hands to [api.savePlant]. *)
Record PlantData : Type := {
  location : option LatLng;
  plant_type : string;
  unique_tag : string
}.

Definition locationRequired : string :=
  "Please click on the map to set a location.".

Definition typeAndTagRequired : string :=
  "Culture Type and Unique Tag are required.".

(** [handleSavePlant] up to its call of the API: the message it shows and
    returns on, or the plant data it sends. *)
Definition handleSavePlant (trim : string -> string)
    (plantTypeSelect plantTagInput : string) (s : MapView) : Outcome PlantData :=
  let plantData := {| location := currentPlantLocation s;
                      plant_type := plantTypeSelect;
                      unique_tag := trim plantTagInput |} in
  match location plantData with
  | None => Rejected locationRequired
  | Some _ =>
      if String.eqb (plant_type plantData) ""
         || String.eqb (unique_tag plantData) ""
      then Rejected typeAndTagRequired
      else Rendered plantData
  end.

(** What the map view keeps from its opening on. *)
Definition mapViewKept (copy : MapCopy) (turf_area : option Geometry -> Number.t)
    (s : MapView) : Prop :=
  drawingKept copy turf_area (drawing s)
  /\ match currentMapMode s with
     | view => polygonPoints (drawing s) = [] /\ currentPlantLocation s = None
     | create_field | create_plant => True
     end
  /\ fieldCreationControlsHidden s = negb (MapMode_eqb (currentMapMode s) create_field)
  /\ plantCreationControlsHidden s = negb (MapMode_eqb (currentMapMode s) create_plant)
  /\ tempPlantMarker s = currentPlantLocation s
  /\ plantTypeSelectDisabled s
     = match currentPlantLocation s with None => true | Some _ => false end.

(* ===================================================================== *)
(** ** After login ([handlers.js]) and the buttons ([ui.js]) *)
(* ===================================================================== *)

(** [.replace(/ /g, '-')]: every space becomes a hyphen. *)
Fixpoint spacesToHyphens (s : string) : string :=
  match s with
  | EmptyString => EmptyString
  | String c rest =>
      String (if Ascii.eqb c " " then "-"%char else c) (spacesToHyphens rest)
  end.

(** [.replace('---', '-')]: the first run of three hyphens, if there is
    one, becomes a single hyphen. *)
Fixpoint tripleToHyphen (s : string) : string :=
  match s with
  | EmptyString => EmptyString
  | String c rest =>
      match rest with
      | String c1 (String c2 rest') =>
          if Ascii.eqb c "-" && Ascii.eqb c1 "-" && Ascii.eqb c2 "-"
          then String "-" rest'
          else String c (tripleToHyphen rest)
      | _ => String c (tripleToHyphen rest)
      end
  end.

(** The key of a variety in [state.varieties]; [toLowerCase] is
    [String.prototype.toLowerCase]. *)
Definition tableKey (toLowerCase : string -> string) (variety : Variety) : string :=
  tripleToHyphen (spacesToHyphens (toLowerCase (name variety))).

(** The [reduce] of [onLoginSuccess]: the varieties of the API, by key. *)
Definition onLoginSuccess (toLowerCase : string -> string)
    (varietiesData : list Variety) : gmap string Variety :=
  fold_left (fun acc variety => <[tableKey toLowerCase variety := variety]> acc)
            varietiesData ∅.

(** A button, as far as [setButtonLoading] touches it:
    [dataset.originalText] is [None] while it was never set. *)
Record Button : Type := {
  disabled : bool;
  textContent : string;
  originalText : option string
}.

(** [setButtonLoading(button, isLoading, loadingText = 'Loading...')]. *)
Definition setButtonLoading (button : Button) (isLoading : bool)
    (loadingText : option string) : Button :=
  let loadingText := match loadingText with Some t => t | None => "Loading..." end in
  if isLoading
  then {| disabled := true;
          textContent := loadingText;
          originalText := Some (textContent button) |}
  else {| disabled := false;
          textContent :=
            match originalText button with
            | Some t => if String.eqb t "" then textContent button else t
            | None => textContent button
            end;
          originalText := originalText button |}.

(** Lower case for the letters A to Z, for the examples. *)
Definition asciiLower (c : ascii) : ascii :=
  let n := nat_of_ascii c in
  if ((65 <=? n) && (n <=? 90))%nat then ascii_of_nat (n + 32) else c.

Fixpoint lowerAZ (s : string) : string :=
  match s with
  | EmptyString => EmptyString
  | String c rest => String (asciiLower c) (lowerAZ rest)
  end.

(** A variety named like another up to case and the separator. *)
Definition brs_433_again : Variety :=
  {| name := "brs-433";
     stages := [];
     target_population := target_population brs_433;
     ideal_soil_conditions := ideal_soil_conditions brs_433 |}.

(** The characters of a string. *)
Fixpoint chars (s : string) : list ascii :=
  match s with
  | EmptyString => []
  | String c rest => c :: chars rest
  end.

(* ===================================================================== *)
(** ** The third copy of the drawing code ([frontend/js/map.js]) *)
(* ===================================================================== *)

(** The map module that [main.js] sits beside keeps the markers in
    [drawingMarkers] and a single polygon object in [drawingPolygon],
    which it updates in place.  [turf.polygon([coordinates])] is the
    feature of the Polygon geometry with these coordinates, and
    [turf.area] of a feature is the area of its geometry, so that the
    area is [turf_area] of that geometry. *)
Module MapFrontend.

Record Drawing : Type := {
  drawingMarkers : list LatLng;
  drawingPolygon : option (list LatLng);
  mapchange : list Area
}.

Definition emptyDrawing : Drawing :=
  {| drawingMarkers := []; drawingPolygon := None; mapchange := [] |}.

Definition updateDrawingPolygon (d : Drawing) : Drawing :=
  let latLngs := drawingMarkers d in
  {| drawingMarkers := drawingMarkers d;
     drawingPolygon :=
       match drawingPolygon d with
       | Some _ => Some latLngs
       | None => if (1 <? length latLngs)%nat then Some latLngs else None
       end;
     mapchange := mapchange d |}.

Definition calculateArea (turf_area : option Geometry -> Number.t)
    (d : Drawing) : Area :=
  if (length (drawingMarkers d) <? 3)%nat
  then {| squareMeters := Number.ofZ 0; hectares := Number.ofZ 0 |}
  else
    let coordinates := map (fun marker => (lng marker, lat marker)) (drawingMarkers d) in
    let coordinates := (coordinates ++ firstn 1 coordinates)%list in
    let areaInSquareMeters :=
      turf_area (Some {| type_ := "Polygon"; coordinates := [coordinates] |}) in
    {| squareMeters := areaInSquareMeters;
       hectares := Number.div areaInSquareMeters (Number.ofZ 10000) |}.

Definition addPolygonMarker (turf_area : option Geometry -> Number.t)
    (d : Drawing) (latlng : LatLng) : Drawing :=
  let d := {| drawingMarkers := (drawingMarkers d ++ [latlng])%list;
              drawingPolygon := drawingPolygon d;
              mapchange := mapchange d |} in
  let d := updateDrawingPolygon d in
  {| drawingMarkers := drawingMarkers d;
     drawingPolygon := drawingPolygon d;
     mapchange := (mapchange d ++ [calculateArea turf_area d])%list |}.

Definition clearDrawing (d : Drawing) : Drawing :=
  {| drawingMarkers := [];
     drawingPolygon := None;
     mapchange :=
       (mapchange d
        ++ [{| squareMeters := Number.ofZ 0; hectares := Number.ofZ 0 |}])%list |}.

Definition getPolygonGeometry (d : Drawing) : option Geometry :=
  if (length (drawingMarkers d) <? 3)%nat then None
  else
    let coordinates := map (fun marker => (lng marker, lat marker)) (drawingMarkers d) in
    let coordinates := (coordinates ++ firstn 1 coordinates)%list in
    Some {| type_ := "Polygon"; coordinates := [coordinates] |}.

Definition drawStep (turf_area : option Geometry -> Number.t)
    (d : Drawing) (op : DrawOp) : Drawing :=
  match op with
  | Click latlng => addPolygonMarker turf_area d latlng
  | Clear => clearDrawing d
  end.

Definition drawRun (turf_area : option Geometry -> Number.t)
    (d : Drawing) (ops : list DrawOp) : Drawing :=
  fold_left (drawStep turf_area) ops d.

(** [state.currentMapArea] under the listener of [main.js]. *)
Definition currentMapArea (d : Drawing) : Area := List.last (mapchange d) zeroArea.

(** What this copy keeps. *)
Definition drawingKept (turf_area : option Geometry -> Number.t) (d : Drawing) : Prop :=
  drawingPolygon d
  = (if (2 <=? length (drawingMarkers d))%nat then Some (drawingMarkers d) else None)
  /\ currentMapArea d = calculateArea turf_area d.

End MapFrontend.

(* ===================================================================== *)
(** ** The variety selects of [script.js] *)
(* ===================================================================== *)

(** The entries of [cottonVarieties] in the order of the source, which is
    the order of [for (const key in cottonVarieties)]. *)
Definition cottonVarietyEntries : list (string * Variety) :=
  [("tmg 84 b3xf", tmg_84_b3xf); ("brs 433", brs_433)].

(** [populateVarieties] of [script.js]: the options of a variety select,
    each a value and a text. *)
Definition populateVarieties (currentCrop : string) : list (string * string) :=
  ("", "-- Select a Variety --")
  :: (if String.eqb currentCrop "cotton"
      then map (fun entry => (fst entry, name (snd entry))) cottonVarietyEntries
      else []).

(* ===================================================================== *)
(** ** Screens and views ([ui.js], [main.js], [script.js]) *)
(* ===================================================================== *)

(** The [active] class of the three screens, and the view that
    [document.querySelector('.view.active')] finds: [showView] leaves at
    most one view active, so after it this is the active view.
    [isView id] tells whether the page has an element of class [view]
    with this id. *)
Record Page : Type := {
  authScreen : bool;
  setupScreen : bool;
  mainAppScreen : bool;
  activeView : option string
}.

Module Ui.

Definition showScreen (screenName : string) (p : Page) : Page :=
  {| authScreen := String.eqb screenName "auth";
     setupScreen := String.eqb screenName "setup";
     mainAppScreen := String.eqb screenName "main";
     activeView := activeView p |}.

(** [showView], as far as the classes go: every view loses [active], and
    the element with the id gets it when there is one. *)
Definition showView (isView : string -> bool) (viewId : string) (p : Page) : Page :=
  {| authScreen := authScreen p;
     setupScreen := setupScreen p;
     mainAppScreen := mainAppScreen p;
     activeView := if isView viewId then Some viewId else None |}.

End Ui.

(** The click handler of [backToSetupBtn] in [main.js]. *)
Definition backToSetupBtn_click (isView : string -> bool) (p : Page) : Page :=
  let currentView := activeView p in
  match currentView with
  | Some id =>
      if String.eqb id "field-details-view"
      then Ui.showView isView "map-view" p
      else if String.eqb id "map-view" || String.eqb id "cycle-planner-view"
              || String.eqb id "sowing-calculator-view"
              || String.eqb id "soil-analysis-view"
      then Ui.showView isView "dashboard-view" p
      else if String.eqb id "dashboard-view"
      then Ui.showScreen "setup" p
      else Ui.showView isView "dashboard-view" p
  | None => Ui.showView isView "dashboard-view" p
  end.

(** The same button in [script.js], which has two screens only; its
    test reads the [active] class of the dashboard view. *)
Module ScriptNav.

Definition showView (isView : string -> bool) (viewId : string) (p : Page) : Page :=
  {| authScreen := authScreen p;
     setupScreen := setupScreen p;
     mainAppScreen := mainAppScreen p;
     activeView := if isView viewId then Some viewId else None |}.

Definition backToSetupBtn_click (isView : string -> bool) (p : Page) : Page :=
  if mainAppScreen p
     && negb (match activeView p with
              | Some id => String.eqb id "dashboard-view"
              | None => false
              end)
  then showView isView "dashboard-view" p
  else {| authScreen := authScreen p;
          setupScreen := true;
          mainAppScreen := false;
          activeView := activeView p |}.

End ScriptNav.

(** The views of the page, for the examples. *)
Definition pageViews (id : string) : bool :=
  existsb (String.eqb id)
    [ "dashboard-view"; "cycle-planner-view"; "sowing-calculator-view";
      "soil-analysis-view"; "map-view"; "field-details-view"; "plant-details-view" ].

(* ===================================================================== *)
(** ** Vocabulary for the further properties of the calculators *)
(* ===================================================================== *)

(** The lines of a timeline that starts on day [t]: each stage runs from
    the running day to that day plus its duration. *)
Fixpoint timelineFrom (t : Z) (o : list (string * Z)) : list StageLine :=
  match o with
  | [] => []
  | (nm, days) :: rest =>
      {| stageName := nm;
         stageStart := Utils.formatDate (Some t);
         stageEnd := Utils.formatDate (Some (t + days));
         stageDuration := days |} :: timelineFrom (t + days) rest
  end.

(** The lines chain from the date [first] to the date [last]: each line
    starts on the date the chain has reached and ends [stageDuration]
    civil days later, where the next one starts. *)
Fixpoint chained (first : Z * Z * Z) (lines : list StageLine)
    (last : Z * Z * Z) : Prop :=
  match lines with
  | [] => first = last
  | l :: rest =>
      stageStart l = Some first
      /\ exists e, stageEnd l = Some e
                   /\ daysBetween first e = stageDuration l
                   /\ chained e rest last
  end.

(** The lines of a timeline whose dates are all Invalid Date. *)
Definition undatedTimeline (o : list (string * Z)) : list StageLine :=
  map (fun entry =>
         {| stageName := fst entry; stageStart := None; stageEnd := None;
            stageDuration := snd entry |}) o.

(** The messages of the cycle handlers. *)
Definition selectVarietyRegionDate : string :=
  "Please select a variety, region, and planting date.".
Definition selectVarietyDate : string :=
  "Please select a variety and a planting date.".
Definition invalidPlantingDate : string :=
  "Invalid planting date. Please use the date picker.".

(** The labels of the soil report, in the order of the calls. *)
Definition reportLabels : list string :=
  [ "pH (CaCl₂)"; "Base Saturation (V%)"; "Aluminum (Al³⁺)"; "Phosphorus (P)";
    "Potassium (K)"; "Calcium (Ca)"; "Magnesium (Mg)"; "Sulfur (S)";
    "Boron (B)"; "Zinc (Zn)"; "Nitrogen (N)" ].

(** A variety like BRS 433 whose aluminum descriptor keeps its ceiling
    under [min], [max] being absent. *)
Definition ceilingUnderMin : Variety := {|
  name := "Ceiling under min";
  stages := stages brs_433;
  target_population := target_population brs_433;
  ideal_soil_conditions :=
    let i := ideal_soil_conditions brs_433 in
    {| Ideal.ph := Ideal.ph i; Ideal.v_percent := Ideal.v_percent i;
       Ideal.al_cmolc := only_min 3 10;
       Ideal.p_ppm := Ideal.p_ppm i; Ideal.k_ppm := Ideal.k_ppm i;
       Ideal.ca_cmolc := Ideal.ca_cmolc i; Ideal.mg_cmolc := Ideal.mg_cmolc i;
       Ideal.s_ppm := Ideal.s_ppm i; Ideal.b_ppm := Ideal.b_ppm i;
       Ideal.zn_ppm := Ideal.zn_ppm i; Ideal.n_ppm := Ideal.n_ppm i |}
|}.

(** The sample with 5 cmolc of aluminum. *)
Definition toxicSample : Inputs.t := {|
  Inputs.ph := Inputs.ph sampleInputs; Inputs.v := Inputs.v sampleInputs;
  Inputs.al := Number.ofZ 5; Inputs.p := Inputs.p sampleInputs;
  Inputs.k := Inputs.k sampleInputs; Inputs.ca := Inputs.ca sampleInputs;
  Inputs.mg := Inputs.mg sampleInputs; Inputs.s := Inputs.s sampleInputs;
  Inputs.b := Inputs.b sampleInputs; Inputs.zn := Inputs.zn sampleInputs;
  Inputs.n := Inputs.n sampleInputs
|}.

(** BRS 433 with its first two stages exchanged. *)
Definition brs_433_reordered : Variety := {|
  name := name brs_433;
  stages := [ ("First Square to First Flower (B1/B3 to F1)", 25);
              ("Emergence to First Square (V0 to B1/B3)", 30);
              ("Flowering Period (F1 to FN)", 40);
              ("Boll Development & Maturation (C1 to CN)", 45) ];
  target_population := target_population brs_433;
  ideal_soil_conditions := ideal_soil_conditions brs_433
|}.

(* ===================================================================== *)
(** * Properties *)
(* ===================================================================== *)

(** ** The calendar *)

(** Case analysis on the integer tests of the goal. *)
Ltac split_tests :=
  repeat match goal with
    | |- context [Z.ltb ?a ?b] => destruct (Z.ltb_spec a b)
    | |- context [Z.leb ?a ?b] => destruct (Z.leb_spec a b)
    | |- context [Z.eqb ?a ?b] => destruct (Z.eqb_spec a b)
    end.

(** [YearFromTime t] is the year whose days contain [t]. *)
Lemma YearFromTime_spec (t : Z) :
  JSDate.DayFromYear (JSDate.YearFromTime t) <= t
  < JSDate.DayFromYear (JSDate.YearFromTime t + 1).
Proof.
  unfold JSDate.YearFromTime, JSDate.DayFromYear.
  split_tests; Z.div_mod_to_equations; lia.
Qed.

(** A year has [DaysInYear] days. *)
Lemma DayFromYear_succ (y : Z) :
  JSDate.DayFromYear (y + 1) = JSDate.DayFromYear y + JSDate.DaysInYear y.
Proof.
  unfold JSDate.DayFromYear, JSDate.DaysInYear.
  split_tests; simpl; Z.div_mod_to_equations; lia.
Qed.

(** The day within the year stays inside the year. *)
Lemma DayWithinYear_range (t : Z) :
  0 <= JSDate.DayWithinYear t < JSDate.DaysInYear (JSDate.YearFromTime t).
Proof.
  unfold JSDate.DayWithinYear.
  pose proof (YearFromTime_spec t) as H.
  rewrite DayFromYear_succ in H. lia.
Qed.

Lemma MonthFromTime_range (t : Z) : 0 <= JSDate.MonthFromTime t <= 11.
Proof.
  unfold JSDate.MonthFromTime. split_tests; lia.
Qed.

(** The day of the month is at least 1. *)
Lemma DateFromTime_pos (t : Z) : 1 <= JSDate.DateFromTime t.
Proof.
  pose proof (DayWithinYear_range t) as Hd.
  unfold JSDate.DateFromTime, JSDate.MonthFromTime, JSDate.InLeapYear.
  destruct (JSDate.DaysInYear (JSDate.YearFromTime t) =? 366);
    split_tests; simpl; lia.
Qed.

(** Rebuilding a day from its own fields, the date shifted by [n], moves
    it by [n] days. *)
Lemma MakeDay_fields (t n : Z) :
  JSDate.MakeDay (JSDate.YearFromTime t) (JSDate.MonthFromTime t)
    (JSDate.DateFromTime t + n) = t + n.
Proof.
  pose proof (MonthFromTime_range t) as Hm.
  unfold JSDate.MakeDay.
  replace (JSDate.MonthFromTime t / 12) with 0
    by (symmetry; apply Z.div_small; lia).
  rewrite Z.mod_small by lia.
  rewrite Z.add_0_r.
  unfold JSDate.DateFromTime, JSDate.InLeapYear, JSDate.DayWithinYear.
  lia.
Qed.

(** Evaluate the integer tests whose operands are closed. *)
Ltac eval_closed_tests :=
  repeat match goal with
    | |- context [Z.leb ?a ?b] =>
        let v := eval vm_compute in (Z.leb a b) in
        match v with true => idtac | false => idtac end;
        change (Z.leb a b) with v
    | |- context [Z.ltb ?a ?b] =>
        let v := eval vm_compute in (Z.ltb a b) in
        match v with true => idtac | false => idtac end;
        change (Z.ltb a b) with v
    end.

(** On the months 0..11 the ECMA-262 day number is the civil day count. *)
Lemma MakeDay_civil (y m d : Z) :
  0 <= m <= 11 -> JSDate.MakeDay y m d = daysFromCivil y (m + 1) d.
Proof.
  intros Hm.
  assert (Hc : m = 0 \/ m = 1 \/ m = 2 \/ m = 3 \/ m = 4 \/ m = 5 \/ m = 6 \/
               m = 7 \/ m = 8 \/ m = 9 \/ m = 10 \/ m = 11) by lia.
  unfold JSDate.MakeDay, daysFromCivil, JSDate.DayFromYear, JSDate.DaysInYear.
  replace (m / 12) with 0 by (symmetry; apply Z.div_small; lia).
  rewrite (Z.mod_small m 12) by lia.
  rewrite Z.add_0_r.
  destruct (Z.eqb_spec (y mod 4) 0), (Z.eqb_spec (y mod 100) 0),
    (Z.eqb_spec (y mod 400) 0); cbn [negb];
    repeat destruct Hc as [-> | Hc]; try subst m; cbn;
    eval_closed_tests; cbv iota; Z.div_mod_to_equations; lia.
Qed.

(** A displayed date determines its day number. *)
Lemma daysFromCivil_formatDate (t : Z) :
  daysFromCivil (JSDate.YearFromTime t) (JSDate.MonthFromTime t + 1)
    (JSDate.DateFromTime t) = t.
Proof.
  pose proof (MonthFromTime_range t) as Hm.
  rewrite <- MakeDay_civil by lia.
  pose proof (MakeDay_fields t 0) as H.
  rewrite !Z.add_0_r in H. exact H.
Qed.

(** [d.setDate(d.getDate() + n)] moves a date by [n] days. *)
Lemma setDate_getDate_add (t n : Z) :
  JSDate.setDate (Some t) (IntNum.add (JSDate.getDate (Some t)) (Some n))
  = Some (t + n).
Proof.
  simpl. f_equal. apply MakeDay_fields.
Qed.

(** Years start in increasing order, so the year of a day is unique. *)
Lemma DayFromYear_mono (y1 y2 : Z) :
  y1 <= y2 -> JSDate.DayFromYear y1 <= JSDate.DayFromYear y2.
Proof.
  intros H. unfold JSDate.DayFromYear. Z.div_mod_to_equations. lia.
Qed.

Lemma YearFromTime_unique (t y : Z) :
  JSDate.DayFromYear y <= t < JSDate.DayFromYear (y + 1) ->
  JSDate.YearFromTime t = y.
Proof.
  intros H. pose proof (YearFromTime_spec t) as S.
  destruct (Z.lt_trichotomy (JSDate.YearFromTime t) y) as [L | [E | G]].
  - pose proof (DayFromYear_mono (JSDate.YearFromTime t + 1) y). lia.
  - exact E.
  - pose proof (DayFromYear_mono (y + 1) (JSDate.YearFromTime t)). lia.
Qed.

(** Evaluate the month argument of [daysInMonth] in [H]. *)
Ltac eval_month H :=
  match type of H with
  | context [daysInMonth _ ?e] =>
      let v := eval vm_compute in e in change e with v in H
  end.

(** The fields of the day that [MakeDay] builds from a date of the
    calendar are that date. *)
Lemma fields_MakeDay (y m d : Z) :
  0 <= m <= 11 -> 1 <= d <= daysInMonth y (m + 1) ->
  JSDate.YearFromTime (JSDate.MakeDay y m d) = y
  /\ JSDate.MonthFromTime (JSDate.MakeDay y m d) = m
  /\ JSDate.DateFromTime (JSDate.MakeDay y m d) = d.
Proof.
  intros Hm Hd.
  assert (Hy : JSDate.YearFromTime (JSDate.MakeDay y m d) = y).
  { apply YearFromTime_unique. rewrite DayFromYear_succ.
    unfold JSDate.MakeDay.
    replace (m / 12) with 0 by (symmetry; apply Z.div_small; lia).
    rewrite (Z.mod_small m 12) by lia. rewrite Z.add_0_r.
    assert (Hc : m = 0 \/ m = 1 \/ m = 2 \/ m = 3 \/ m = 4 \/ m = 5 \/ m = 6 \/
                 m = 7 \/ m = 8 \/ m = 9 \/ m = 10 \/ m = 11) by lia.
    assert (HD : JSDate.DaysInYear y = 365 \/ JSDate.DaysInYear y = 366)
      by (unfold JSDate.DaysInYear; split_tests; simpl; lia).
    destruct HD as [HD | HD];
      repeat destruct Hc as [-> | Hc]; try subst m; eval_month Hd;
      unfold daysInMonth in Hd; rewrite HD in *; cbn in *; lia. }
  assert (Hw : JSDate.DayWithinYear (JSDate.MakeDay y m d)
               = JSDate.monthStart m (if JSDate.DaysInYear y =? 366 then 1 else 0)
                 + d - 1).
  { unfold JSDate.DayWithinYear. rewrite Hy. unfold JSDate.MakeDay.
    replace (m / 12) with 0 by (symmetry; apply Z.div_small; lia).
    rewrite (Z.mod_small m 12) by lia. rewrite Z.add_0_r. lia. }
  assert (Hmo : JSDate.MonthFromTime (JSDate.MakeDay y m d) = m).
  { unfold JSDate.MonthFromTime, JSDate.InLeapYear. rewrite Hw, Hy.
    assert (Hc : m = 0 \/ m = 1 \/ m = 2 \/ m = 3 \/ m = 4 \/ m = 5 \/ m = 6 \/
                 m = 7 \/ m = 8 \/ m = 9 \/ m = 10 \/ m = 11) by lia.
    repeat destruct Hc as [-> | Hc]; try subst m; eval_month Hd;
      unfold daysInMonth in Hd;
      destruct (JSDate.DaysInYear y =? 366); cbn in *;
      split_tests; lia. }
  split; [exact Hy |]. split; [exact Hmo |].
  unfold JSDate.DateFromTime, JSDate.InLeapYear. rewrite Hw, Hmo, Hy. lia.
Qed.

(** ** Reading a date *)

(** The fields of a date string are a month and a day in range. *)
Lemma dateFields_range (s : string) (y m d : Z) :
  JSString.dateFields s = Some (y, m, d) -> 1 <= m <= 12 /\ 1 <= d <= 31.
Proof.
  unfold JSString.dateFields.
  destruct (_ && _ && _ && _); [| discriminate].
  destruct (JSString.Number (substring 0 4 s)) as [y' |]; [| discriminate].
  destruct (JSString.Number (substring 5 2 s)) as [m' |]; [| discriminate].
  destruct (JSString.Number (substring 8 2 s)) as [d' |]; [| discriminate].
  destruct ((1 <=? m') && (m' <=? 12) && (1 <=? d') && (d' <=? 31)) eqn:R;
    [| discriminate].
  intros H. injection H as <- <- <-.
  rewrite !andb_true_iff, !Z.leb_le in R. lia.
Qed.

Lemma dateFields_nonempty (s : string) (f : Z * Z * Z) :
  JSString.dateFields (s ++ "T00:00:00") = Some f -> String.eqb s "" = false.
Proof.
  destruct s as [| c s']; [discriminate | reflexivity].
Qed.

(** The time value of a date that has fields is the civil day count of
    those fields. *)
Lemma parseDate_fields (s : string) (y m d : Z) :
  JSString.dateFields s = Some (y, m, d) ->
  JSString.parseDate s = Some (daysFromCivil y m d).
Proof.
  intros H. pose proof (dateFields_range _ _ _ _ H) as [Hm _].
  unfold JSString.parseDate. rewrite H. f_equal.
  rewrite MakeDay_civil by lia. f_equal. lia.
Qed.

(** A date of the calendar is displayed as it was entered. *)
Lemma formatDate_parseDate (s : string) (y m d : Z) :
  JSString.dateFields s = Some (y, m, d) -> d <= daysInMonth y m ->
  Utils.formatDate (JSString.parseDate s) = Some (y, m, d).
Proof.
  intros H Hd. pose proof (dateFields_range _ _ _ _ H) as [Hm Hd1].
  unfold JSString.parseDate. rewrite H. cbn [Utils.formatDate].
  destruct (fields_MakeDay y (m - 1) d) as (Ey & Em & Ed).
  - lia.
  - replace (m - 1 + 1) with m by lia. lia.
  - rewrite Ey, Em, Ed. do 2 f_equal. f_equal. lia.
Qed.

(** ** The cycle timeline *)

(** The [reduce] of the handler adds up the durations. *)
Lemma fold_add_durations (o : list (string * Z)) (acc : Z) :
  fold_left (fun a days => a + days) (Object_values o) acc = acc + durationSum o.
Proof.
  revert acc. induction o as [| [nm days] rest IH]; intros acc; simpl.
  - lia.
  - unfold Object_values in IH. rewrite IH. lia.
Qed.

Lemma sumStages_durationSum (o : list (string * Z)) : sumStages o = durationSum o.
Proof.
  unfold sumStages. rewrite fold_add_durations. lia.
Qed.

(** The loop of [map.js] moves [currentDate] by the sum of the durations
    and writes one line per stage. *)
Lemma MapJs_loop (o : list (string * Z)) (html : list StageLine) (t : Z) :
  exists html',
    fold_left MapJs.stageStep o (html, Some t) = (html', Some (t + durationSum o))
    /\ length html' = (length html + length o)%nat.
Proof.
  revert html t. induction o as [| [nm days] rest IH]; intros html t.
  - exists html. simpl. split; [do 2 f_equal; lia | lia].
  - cbn [fold_left MapJs.stageStep].
    rewrite setDate_getDate_add.
    match goal with
    | |- context [fold_left _ rest (?h, _)] => destruct (IH h (t + days)) as [h' [E L]]
    end.
    exists h'. split.
    + eapply eq_trans; [exact E |]. cbn [durationSum]. do 2 f_equal. lia.
    + rewrite L, length_app. simpl. lia.
Qed.

(** The two copies of the loop body agree: the start that [map.js]
    recomputes from the end of a stage is the date [script.js] copied
    before advancing. *)
Lemma stageStep_agree (st : list StageLine * JSDate.t) (entry : string * Z) :
  Script.stageStep st entry = MapJs.stageStep st entry.
Proof.
  destruct st as [html [t |]], entry as [nm days];
    unfold Script.stageStep, MapJs.stageStep, Script.formatDate;
    [| reflexivity].
  rewrite setDate_getDate_add. cbn [JSDate.getTime JSDate.ofTime IntNum.add].
  replace (t + days + - days) with t by lia. reflexivity.
Qed.

Lemma loops_agree (o : list (string * Z)) (st : list StageLine * JSDate.t) :
  fold_left Script.stageStep o st = fold_left MapJs.stageStep o st.
Proof.
  revert st. induction o as [| entry rest IH]; intros st; simpl.
  - reflexivity.
  - rewrite stageStep_agree. apply IH.
Qed.

Lemma Script_loop (o : list (string * Z)) (html : list StageLine) (t : Z) :
  exists html',
    fold_left Script.stageStep o (html, Some t)
    = (html', Some (t + durationSum o))
    /\ length html' = (length html + length o)%nat.
Proof.
  destruct (MapJs_loop o html t) as [html' [E L]].
  exists html'. split; [| exact L].
  eapply eq_trans; [apply loops_agree | exact E].
Qed.

(** Replace the loop of a handler by the final state a loop lemma gives. *)
Ltac use_loop E :=
  match type of E with
  | _ = ?final =>
      match goal with
      | |- context [fold_left ?f ?o ?st] =>
          replace (fold_left f o st) with final by (symmetry; exact E)
      end
  end.



(** Evaluate a handler on closed inputs and take what it renders. *)
Ltac run_handler :=
  match goal with
  | |- exists res, ?lhs = Rendered res /\ _ =>
      let v := eval vm_compute in lhs in
      match v with
      | Rendered ?r => exists r; split; [vm_compute; reflexivity |]
      end
  end.


Lemma MapJs_example_loop :
  fold_left MapJs.stageStep exampleStages
    ([], JSString.parseDate ("2025-01-01" ++ "T00:00:00"))
  = (exampleTimeline, Some 20239).
Proof. vm_compute; reflexivity. Qed.

Lemma Script_example_loop :
  fold_left Script.stageStep exampleStages
    ([], JSString.parseDate ("2025-01-01" ++ "T00:00:00"))
  = (exampleTimeline, Some 20239).
Proof. vm_compute; reflexivity. Qed.

Lemma formatDate_20239 : Utils.formatDate (Some 20239) = Some (2025, 5, 31).
Proof. vm_compute; reflexivity. Qed.






(** ** The planting window classifier *)

(** [isBetween] on numbers that are not [NaN] is the specification's
    window test. *)
Lemma isBetween_insideWindow (month day : Z) (start end_ : Z * Z) :
  isBetween (Some month) (Some day)
    [Some (fst start); Some (snd start)] [Some (fst end_); Some (snd end_)]
  = insideWindow (encode (month, day)) start end_.
Proof.
  unfold isBetween, insideWindow, encode, JSString.at_. cbn.
  split_tests; try reflexivity; lia.
Qed.

(** The window test in the specification's words: between the bounds
    when [start <= end], outside the gap when the window wraps. *)
Lemma insideWindow_spec (date : Z) (start end_ : Z * Z) :
  (encode start <= encode end_ ->
   (insideWindow date start end_ = true
    <-> encode start <= date <= encode end_))
  /\ (encode start > encode end_ ->
      (insideWindow date start end_ = true
       <-> date >= encode start \/ date <= encode end_)).
Proof.
  unfold insideWindow.
  split; intros H; split_tests; cbn; split; intros; try lia;
    try discriminate; try reflexivity.
Qed.

Lemma utilsBadge_inj (c c' : Category) : utilsBadge c = utilsBadge c' -> c = c'.
Proof. destruct c, c'; simpl; intros H; try reflexivity; discriminate H. Qed.

Lemma scriptBadge_inj (c c' : Category) : scriptBadge c = scriptBadge c' -> c = c'.
Proof. destruct c, c'; simpl; intros H; try reflexivity; discriminate H. Qed.

(** A badge chosen by the two window tests, preferential first, is the
    badge the specification assigns. *)
Lemma classifies_by_tests (badgeOf : Category -> Badge) (date : Z) (c : Calendar) :
  (forall k k', badgeOf k = badgeOf k' -> k = k') ->
  classifies badgeOf
    (if insideWindow date (preferentialStart c) (preferentialEnd c)
     then badgeOf Preferential
     else if insideWindow date (toleratedStart c) (toleratedEnd c)
          then badgeOf Tolerated
          else badgeOf NotRecommended)
    date c.
Proof.
  intros Hinj. unfold classifies.
  destruct (insideWindow date (preferentialStart c) (preferentialEnd c));
    destruct (insideWindow date (toleratedStart c) (toleratedEnd c));
    repeat split; intros; try reflexivity; try discriminate;
    repeat match goal with
      | H : _ /\ _ |- _ => destruct H
      | H : badgeOf _ = badgeOf _ |- _ => apply Hinj in H
      end;
    discriminate.
Qed.

Lemma Utils_getPlantingSeason_tests (month day : Z) (r : Region) (c : Calendar) :
  reads r c ->
  Utils.getPlantingSeason (Some month) (Some day) (Some r)
  = if insideWindow (encode (month, day)) (preferentialStart c) (preferentialEnd c)
    then utilsBadge Preferential
    else if insideWindow (encode (month, day)) (toleratedStart c) (toleratedEnd c)
         then utilsBadge Tolerated
         else utilsBadge NotRecommended.
Proof.
  intros (Hps & Hpe & Hts & Hte). unfold readsAs in *.
  unfold Utils.getPlantingSeason. cbv zeta.
  rewrite Hps, Hpe, Hts, Hte, !isBetween_insideWindow. reflexivity.
Qed.

Lemma Script_getPlantingSeason_tests (month day : Z) (r : Region) (c : Calendar) :
  reads r c ->
  Script.getPlantingSeason (Some month) (Some day) (Some r)
  = Rendered
      (if insideWindow (encode (month, day)) (preferentialStart c) (preferentialEnd c)
       then scriptBadge Preferential
       else if insideWindow (encode (month, day)) (toleratedStart c) (toleratedEnd c)
            then scriptBadge Tolerated
            else scriptBadge NotRecommended).
Proof.
  intros (Hps & Hpe & Hts & Hte). unfold readsAs in *.
  unfold Script.getPlantingSeason. cbv zeta.
  rewrite Hps, Hpe, Hts, Hte, !isBetween_insideWindow.
  repeat match goal with
    | |- context [if ?b then _ else _] => destruct b
    end; reflexivity.
Qed.

(** Every calendar of valid (month, day) pairs has a table entry that
    reads as it, so the hypothesis [reads r c] below leaves no calendar
    out. *)
Lemma readsAs_monthDayString (md : Z * Z) :
  validMonthDay md -> readsAs (monthDayString md) md.
Proof.
  destruct md as [m d]. unfold validMonthDay. cbn [fst snd]. intros [Hm Hd].
  assert (Cm : m = 1 \/ m = 2 \/ m = 3 \/ m = 4 \/ m = 5 \/ m = 6 \/ m = 7 \/
               m = 8 \/ m = 9 \/ m = 10 \/ m = 11 \/ m = 12) by lia.
  assert (Cd : d = 1 \/ d = 2 \/ d = 3 \/ d = 4 \/ d = 5 \/ d = 6 \/ d = 7 \/
               d = 8 \/ d = 9 \/ d = 10 \/ d = 11 \/ d = 12 \/ d = 13 \/
               d = 14 \/ d = 15 \/ d = 16 \/ d = 17 \/ d = 18 \/ d = 19 \/
               d = 20 \/ d = 21 \/ d = 22 \/ d = 23 \/ d = 24 \/ d = 25 \/
               d = 26 \/ d = 27 \/ d = 28 \/ d = 29 \/ d = 30 \/ d = 31) by lia.
  clear Hm Hd.
  repeat destruct Cm as [-> | Cm]; try subst m;
    repeat destruct Cd as [-> | Cd]; try subst d;
    vm_compute; reflexivity.
Qed.

Lemma reads_regionOf (c : Calendar) :
  validMonthDay (preferentialStart c) -> validMonthDay (preferentialEnd c) ->
  validMonthDay (toleratedStart c) -> validMonthDay (toleratedEnd c) ->
  reads (regionOf c) c.
Proof.
  intros H1 H2 H3 H4. unfold reads, regionOf, mkRegion. cbn.
  repeat split; apply readsAs_monthDayString; assumption.
Qed.

(** C3. For every month and day (so for months 1..12 and days 1..31) and
    every region calendar, both copies of the classifier render the
    preferential badge exactly when [month * 100 + day] lies in the
    preferential window, otherwise the tolerated badge exactly when it lies
    in the tolerated window, otherwise the not-recommended badge, a window
    with [start > end] wrapping over the end of the year.  And for a
    calendar with tolerated window (12,15)..(1,31) whose preferential
    window holds none of (12,20), (1,10), (6,1), the first two dates are
    Tolerated and the third NotRecommended. *)
Theorem planting_window_classification
    (month day : Z) (r : Region) (c : Calendar) :
  reads r c ->
  (classifies utilsBadge
     (Utils.getPlantingSeason (Some month) (Some day) (Some r))
     (encode (month, day)) c
   /\ exists b,
        Script.getPlantingSeason (Some month) (Some day) (Some r) = Rendered b
        /\ classifies scriptBadge b (encode (month, day)) c)
  /\ (forall start end_ : Z * Z,
        let inside :=
          isBetween (Some month) (Some day)
            [Some (fst start); Some (snd start)]
            [Some (fst end_); Some (snd end_)] in
        (encode start <= encode end_ ->
         (inside = true
          <-> encode start <= encode (month, day) <= encode end_))
        /\ (encode start > encode end_ ->
            (inside = true
             <-> encode (month, day) >= encode start
                 \/ encode (month, day) <= encode end_)))
  /\ (toleratedStart c = (12, 15) ->
      toleratedEnd c = (1, 31) ->
      insideWindow (encode (12, 20)) (preferentialStart c) (preferentialEnd c) = false ->
      insideWindow (encode (1, 10)) (preferentialStart c) (preferentialEnd c) = false ->
      insideWindow (encode (6, 1)) (preferentialStart c) (preferentialEnd c) = false ->
      (Utils.getPlantingSeason (Some 12) (Some 20) (Some r) = utilsBadge Tolerated
       /\ Utils.getPlantingSeason (Some 1) (Some 10) (Some r) = utilsBadge Tolerated
       /\ Utils.getPlantingSeason (Some 6) (Some 1) (Some r) = utilsBadge NotRecommended)
      /\ (Script.getPlantingSeason (Some 12) (Some 20) (Some r)
          = Rendered (scriptBadge Tolerated)
          /\ Script.getPlantingSeason (Some 1) (Some 10) (Some r)
             = Rendered (scriptBadge Tolerated)
          /\ Script.getPlantingSeason (Some 6) (Some 1) (Some r)
             = Rendered (scriptBadge NotRecommended))).
Proof.
  intros Hr. split; [split | split].
  - rewrite (Utils_getPlantingSeason_tests _ _ _ _ Hr).
    apply classifies_by_tests, utilsBadge_inj.
  - eexists. split; [apply (Script_getPlantingSeason_tests _ _ _ _ Hr) |].
    apply classifies_by_tests, scriptBadge_inj.
  - intros start end_. cbv zeta. rewrite isBetween_insideWindow.
    apply insideWindow_spec.
  - intros Hts Hte H1 H2 H3.
    rewrite !(Utils_getPlantingSeason_tests _ _ _ _ Hr),
      !(Script_getPlantingSeason_tests _ _ _ _ Hr).
    rewrite H1, H2, H3, Hts, Hte.
    repeat split; reflexivity.
Qed.

Lemma planting_window_classification_witness :
  (Utils.getPlantingSeason (Some 12) (Some 20) (Some (regionOf wrapCalendar))
   = utilsBadge Tolerated
   /\ Utils.getPlantingSeason (Some 1) (Some 10) (Some (regionOf wrapCalendar))
      = utilsBadge Tolerated
   /\ Utils.getPlantingSeason (Some 6) (Some 1) (Some (regionOf wrapCalendar))
      = utilsBadge NotRecommended)
  /\ (Script.getPlantingSeason (Some 12) (Some 20) (Some (regionOf wrapCalendar))
      = Rendered (scriptBadge Tolerated)
      /\ Script.getPlantingSeason (Some 1) (Some 10) (Some (regionOf wrapCalendar))
         = Rendered (scriptBadge Tolerated)
      /\ Script.getPlantingSeason (Some 6) (Some 1) (Some (regionOf wrapCalendar))
         = Rendered (scriptBadge NotRecommended)).
Proof.
  apply (planting_window_classification 12 20 (regionOf wrapCalendar) wrapCalendar);
    [repeat split; reflexivity | reflexivity ..].
Defined.

(** Without a region [utils.js] raises nothing: on 1 June the classifier
    returns the "Region not selected" badge, and [handleCycleCalculation]
    with a region key that is not in the table renders its result with
    that badge. *)
Lemma absent_region_is_a_badge :
  Utils.getPlantingSeason (Some 6) (Some 1) None = regionNotSelected
  /\ exists res,
       MapJs.handleCycleCalculation cottonVarieties zoningData "brs 433"
         "2025-06-01" "nowhere" = Rendered res
       /\ plantingSeason res = regionNotSelected.
Proof.
  split; [reflexivity |].
  run_handler. reflexivity.
Qed.

(** C9, amended. For every month and day, the classifier of [utils.js]
    answers an absent region with the "Region not selected" badge, styled
    as not-recommended, and signals no error; the copy in [script.js] has
    no guard and throws a [TypeError]. *)
Theorem absent_region (month day : IntNum.t) :
  Utils.getPlantingSeason month day None = regionNotSelected
  /\ badge_class regionNotSelected = badge_class (utilsBadge NotRecommended)
  /\ Script.getPlantingSeason month day None = Threw TypeError.
Proof.
  repeat split.
Qed.

(** ** Numbers *)

(** [Math.ceil] on a few values: 3.5, -3.5, -0.5 (which gives [-0]), 2 and
    the raw seed count of the specification's example. *)
Example ceil_examples :
  Number.toZ (Number.ceil (Number.dec 35 10)) = Some 4
  /\ Number.toZ (Number.ceil (Number.dec (-35) 10)) = Some (-3)
  /\ Number.ceil (Number.dec (-5) 10) = S754_zero true
  /\ Number.ceil (Number.ofZ 2) = Number.ofZ 2
  /\ Number.ceil Number.NaN = Number.NaN
  /\ Number.toZ (Number.ceil (Number.dec 128333333 100)) = Some 1283334.
Proof. repeat split; vm_compute; reflexivity. Qed.

(** The decimal literals of the code are the binary64 numbers nearest to
    them: 1.05 is 4728779608739021 * 2^-52 and 1.10 is
    4953959590107546 * 2^-52. *)
Example literal_examples :
  Number.dec 105 100 = S754_finite false 4728779608739021 (-52)
  /\ Number.dec 110 100 = S754_finite false 4953959590107546 (-52)
  /\ Number.ofZ 1 = S754_finite false 4503599627370496 (-52).
Proof. repeat split; vm_compute; reflexivity. Qed.

(** ** The sowing density calculator *)

(** The number 0 is [+0]. *)
Lemma zero_is_plus_zero : Number.ofZ 0 = S754_zero false.
Proof. reflexivity. Qed.

(** A number above zero is truthy. *)
Lemma positive_not_falsy (x : Number.t) :
  Number.lt (Number.ofZ 0) x = true -> Number.not x = false.
Proof.
  rewrite zero_is_plus_zero.
  destruct x as [sg | sg | | sg m e]; cbn; intros H;
    try reflexivity; discriminate H.
Qed.

(** The factor the code picks is the specification's. *)
Lemma conditionFactorOf_spec (fc : FieldCondition) :
  conditionFactorOf (conditionValue fc) = specConditionFactor fc.
Proof.
  destruct fc; vm_compute; reflexivity.
Qed.

Lemma seedsToBuyCeil_spec (area population germinationRate : Number.t)
    (fc : FieldCondition) :
  seedsToBuyCeil area population germinationRate (conditionValue fc)
  = specSeedCount area population germinationRate fc.
Proof.
  unfold seedsToBuyCeil, specSeedCount. cbv zeta.
  rewrite conditionFactorOf_spec. reflexivity.
Qed.



(** The products are binary64 products: for 1 ha, a target population of
    100000, germination 100 and poor conditions, [100000 * 1.1] rounds to
    the number just above 110000 and the count is 110001. *)
Remark seed_count_is_binary64 :
  specSeedCount (Number.ofZ 1) (Number.ofZ 100000) (Number.ofZ 100) Poor
  = Number.ofZ 110001.
Proof. vm_compute; reflexivity. Qed.

(** Inputs outside the specification's ranges are not refused: a negative
    area, a germination rate of 150 and a variety without target population
    each get a count (-611111, 733334 and [NaN]). *)
Lemma sowing_out_of_range_is_rendered :
  (Number.lt (Number.ofZ (-5)) (Number.ofZ 0) = true
   /\ MapJs.handleSowingCalculation cottonVarieties (Number.ofZ (-5)) "tmg 84 b3xf"
        (Number.ofZ 90) "good" = Rendered (Number.ofZ (-611111))
   /\ Script.calculateSowingBtn_click cottonVarieties (Number.ofZ (-5)) "tmg 84 b3xf"
        (Number.ofZ 90) "good" = Rendered (Number.ofZ (-611111)))
  /\ (Number.gt (Number.ofZ 150) (Number.ofZ 100) = true
      /\ MapJs.handleSowingCalculation cottonVarieties (Number.ofZ 10) "tmg 84 b3xf"
           (Number.ofZ 150) "good" = Rendered (Number.ofZ 733334)
      /\ Script.calculateSowingBtn_click cottonVarieties (Number.ofZ 10) "tmg 84 b3xf"
           (Number.ofZ 150) "good" = Rendered (Number.ofZ 733334))
  /\ (Number.lt (Number.ofZ (-90)) (Number.ofZ 0) = true
      /\ isRendered
           (MapJs.handleSowingCalculation cottonVarieties (Number.ofZ 10) "tmg 84 b3xf"
              (Number.ofZ (-90)) "good") = true)
  /\ (target_population noPopulationVariety = None
      /\ MapJs.handleSowingCalculation (<["bare" := noPopulationVariety]> ∅)
           (Number.ofZ 10) "bare" (Number.ofZ 90) "good" = Rendered Number.NaN
      /\ Script.calculateSowingBtn_click (<["bare" := noPopulationVariety]> ∅)
           (Number.ofZ 10) "bare" (Number.ofZ 90) "good" = Rendered Number.NaN).
Proof.
  repeat split; vm_compute; reflexivity.
Qed.

Lemma eqb_empty (s : string) : String.eqb s "" = true <-> s = "".
Proof. apply String.eqb_eq. Qed.

(** The test that guards both copies of the sowing handler. *)
Lemma sowing_guard (area : Number.t) (varietyKey : string)
    (germinationRate : Number.t) :
  Number.not area || String.eqb varietyKey "" || Number.not germinationRate = true
  <-> Number.not area = true \/ varietyKey = ""
      \/ Number.not germinationRate = true.
Proof.
  rewrite !orb_true_iff, eqb_empty. tauto.
Qed.

(** C8, amended. Both copies reject the input, with "Please fill in all
    fields correctly." and no seed count, exactly when the area is 0 or
    [NaN], or the variety key is empty, or the germination rate is 0 or
    [NaN].  Every other input whose variety resolves gets a count by the
    same formula, a missing target population entering it as [NaN]:
    negative areas, negative rates and rates above 100 are not refused. *)
Theorem sowing_rejection
    (varieties : gmap string Variety) (area germinationRate : Number.t)
    (varietyKey conditions : string) :
  (MapJs.handleSowingCalculation varieties area varietyKey germinationRate conditions
   = Rejected fillAllFields
   <-> Number.not area = true \/ varietyKey = ""
       \/ Number.not germinationRate = true)
  /\ (Script.calculateSowingBtn_click varieties area varietyKey germinationRate
        conditions = Rejected fillAllFields
      <-> Number.not area = true \/ varietyKey = ""
          \/ Number.not germinationRate = true)
  /\ (forall cultivar : Variety,
        Number.not area = false -> varietyKey <> "" ->
        Number.not germinationRate = false ->
        varieties !! varietyKey = Some cultivar ->
        MapJs.handleSowingCalculation varieties area varietyKey germinationRate
          conditions
        = Rendered (seedsToBuyCeil area
                      (Number.ofValue (target_population cultivar))
                      germinationRate conditions)
        /\ Script.calculateSowingBtn_click varieties area varietyKey germinationRate
             conditions
           = Rendered (seedsToBuyCeil area
                         (Number.ofValue (target_population cultivar))
                         germinationRate conditions)).
Proof.
  pose proof (sowing_guard area varietyKey germinationRate) as G.
  unfold MapJs.handleSowingCalculation, Script.calculateSowingBtn_click.
  destruct (Number.not area || String.eqb varietyKey ""
            || Number.not germinationRate).
  - split; [| split].
    + split; [intros _; apply G; reflexivity | reflexivity].
    + split; [intros _; apply G; reflexivity | reflexivity].
    + intros cultivar Ha Hk Hg _.
      assert (true = true) as H by reflexivity. apply G in H.
      destruct H as [H | [H | H]]; congruence.
  - split; [| split].
    + split; [| intros H; apply G in H; discriminate H].
      destruct (varieties !! varietyKey); discriminate.
    + split; [| intros H; apply G in H; discriminate H].
      destruct (varieties !! varietyKey); discriminate.
    + intros cultivar _ _ _ Hvar. rewrite Hvar. split; reflexivity.
Qed.



(** ** The soil adequacy analyzer *)

(** Each of the eleven measurements is among [Object.values(inputs)]. *)
Lemma measured_in_values (key : Nutrient) (inputs : Inputs.t) :
  In (measured key inputs) (Inputs.values inputs).
Proof.
  destruct key; simpl; tauto.
Qed.

Lemma missing_measurement_found (key : Nutrient) (inputs : Inputs.t) :
  Number.isNaN (measured key inputs) = true ->
  existsb Number.isNaN (Inputs.values inputs) = true.
Proof.
  intros H. apply existsb_exists. exists (measured key inputs).
  split; [apply measured_in_values | exact H].
Qed.

(** Whatever is rendered is the whole report: eleven lines, from eleven
    numbers. *)
Lemma soil_report_is_complete (varieties : gmap string Variety)
    (varietyKey : string) (inputs : Inputs.t) (lines : list ReportLine) :
  MapJs.handleSoilAnalysis varieties varietyKey inputs = Rendered lines
  \/ Script.analyzeSoilBtn_click varieties varietyKey inputs = Rendered lines ->
  length lines = 11%nat
  /\ forall key : Nutrient, Number.isNaN (measured key inputs) = false.
Proof.
  unfold MapJs.handleSoilAnalysis, Script.analyzeSoilBtn_click.
  destruct (String.eqb varietyKey ""); cbn [orb];
    [intros [H | H]; discriminate H |].
  destruct (existsb Number.isNaN (Inputs.values inputs)) eqn:E;
    [intros [H | H]; discriminate H |].
  destruct (varieties !! varietyKey); [| intros [H | H]; discriminate H].
  intros H.
  assert (Hl : lines = reportLines inputs (ideal_soil_conditions v))
    by (destruct H as [H | H]; injection H as <-; reflexivity).
  subst lines. split; [reflexivity |].
  intros key. destruct (Number.isNaN (measured key inputs)) eqn:Hn; [| reflexivity].
  apply missing_measurement_found in Hn. congruence.
Qed.

(** C6. If any of the eleven measurements is [NaN] (the field was empty
    or held no number), both copies of the analyzer reject the input with a
    message and render no report line: nothing partial is produced. *)
Theorem soil_missing_measurement
    (varieties : gmap string Variety) (varietyKey : string)
    (inputs : Inputs.t) (key : Nutrient) :
  Number.isNaN (measured key inputs) = true ->
  MapJs.handleSoilAnalysis varieties varietyKey inputs
  = Rejected (if String.eqb varietyKey ""
              then "Please select a reference variety."
              else "Please fill all fields with valid numbers.")
  /\ Script.analyzeSoilBtn_click varieties varietyKey inputs
     = Rejected "Please select a variety and enter valid values in all fields."
  /\ (forall lines : list ReportLine,
        MapJs.handleSoilAnalysis varieties varietyKey inputs <> Rendered lines
        /\ Script.analyzeSoilBtn_click varieties varietyKey inputs <> Rendered lines).
Proof.
  intros H. apply missing_measurement_found in H.
  unfold MapJs.handleSoilAnalysis, Script.analyzeSoilBtn_click. rewrite H.
  destruct (String.eqb varietyKey ""); cbn [orb];
    repeat split; discriminate.
Qed.

Lemma soil_missing_measurement_witness :
  MapJs.handleSoilAnalysis cottonVarieties "brs 433" withoutZinc
  = Rejected "Please fill all fields with valid numbers."
  /\ Script.analyzeSoilBtn_click cottonVarieties "brs 433" withoutZinc
     = Rejected "Please select a variety and enter valid values in all fields."
  /\ (forall lines : list ReportLine,
        MapJs.handleSoilAnalysis cottonVarieties "brs 433" withoutZinc <> Rendered lines
        /\ Script.analyzeSoilBtn_click cottonVarieties "brs 433" withoutZinc
           <> Rendered lines).
Proof.
  apply (soil_missing_measurement cottonVarieties "brs 433" withoutZinc N_zn).
  reflexivity.
Defined.


(** Case analysis on the comparisons of exponents and mantissas. *)
Ltac cmp_cases :=
  repeat match goal with
    | H : context [Z.compare ?a ?b] |- _ => destruct (Z.compare_spec a b)
    | H : context [Pos.compare ?a ?b] |- _ => destruct (Pos.compare_spec a b)
    | |- context [Z.compare ?a ?b] => destruct (Z.compare_spec a b)
    | |- context [Pos.compare ?a ?b] => destruct (Pos.compare_spec a b)
    end.

(** A value strictly between [hi] and [lo] shows that [lo <= hi] fails. *)
Lemma between_excludes_le (v lo hi : Number.t) :
  Number.lt v lo = true -> Number.gt v hi = true -> Number.le lo hi = false.
Proof.
  unfold Number.lt, Number.gt, Number.le, SFltb, SFleb, SFcompare.
  destruct v as [s | s | | s m e], lo as [s0 | s0 | | s0 m0 e0],
    hi as [s1 | s1 | | s1 m1 e1];
    try destruct s; try destruct s0; try destruct s1;
    try (intros; reflexivity); try (intros; discriminate);
    change (Pos.compare_cont Eq) with Pos.compare;
    intros H1 H2; cmp_cases; simpl in *;
    try reflexivity; try discriminate; try lia.
Qed.


(** The report of the sample against BRS 433: phosphorus (22 ppm under a
    floor of 25) and nitrogen (110 ppm under a floor of 120) are low, the
    other nine lines ok; with 0.5 cmolc of aluminum, above the threshold
    0.3, the aluminum line is high. *)
Example soil_report_sample :
  (exists lines,
      MapJs.handleSoilAnalysis cottonVarieties "brs 433" sampleInputs = Rendered lines
      /\ Script.analyzeSoilBtn_click cottonVarieties "brs 433" sampleInputs
         = Rendered lines
      /\ map status lines
         = ["ok"; "ok"; "ok"; "low"; "ok"; "ok"; "ok"; "ok"; "ok"; "ok"; "low"])
  /\ status (createReportLine "Aluminum (Al³⁺)" "cmolc" (Number.dec 5 10)
               (Ideal.max (Ideal.al_cmolc (ideal_soil_conditions brs_433)))
               None true) = "high".
Proof.
  split; [| vm_compute; reflexivity].
  run_handler. split; vm_compute; reflexivity.
Qed.

(* ===================================================================== *)
(** * Further properties of the calculators *)
(* ===================================================================== *)

(** ** The lines of the timeline *)

(** On a valid date the loop of [map.js] appends the lines of
    [timelineFrom] and ends on the day after the last stage. *)
Lemma MapJs_loop_lines (o : list (string * Z)) (html : list StageLine) (t : Z) :
  fold_left MapJs.stageStep o (html, Some t)
  = ((html ++ timelineFrom t o)%list, Some (t + durationSum o)).
Proof.
  revert html t. induction o as [| [nm days] rest IH]; intros html t.
  - cbn. rewrite app_nil_r. do 2 f_equal. lia.
  - cbn [fold_left MapJs.stageStep].
    rewrite setDate_getDate_add.
    cbn [JSDate.getTime JSDate.ofTime IntNum.add].
    replace (t + days + - days) with t by lia.
    eapply eq_trans; [apply IH |].
    cbn [timelineFrom durationSum]. rewrite <- app_assoc. cbn [app].
    do 2 f_equal. lia.
Qed.

(** On an Invalid Date every date of the loop stays invalid. *)
Lemma MapJs_loop_undated (o : list (string * Z)) (html : list StageLine) :
  fold_left MapJs.stageStep o (html, None)
  = ((html ++ undatedTimeline o)%list, None).
Proof.
  revert html. induction o as [| [nm days] rest IH]; intros html.
  - cbn. rewrite app_nil_r. reflexivity.
  - cbn [fold_left MapJs.stageStep JSDate.setDate JSDate.getTime
           JSDate.ofTime IntNum.add Utils.formatDate].
    eapply eq_trans; [apply IH |].
    unfold undatedTimeline. cbn [map fst snd]. rewrite <- app_assoc.
    reflexivity.
Qed.

Lemma timelineFrom_chained (o : list (string * Z)) (t : Z) :
  chained (JSDate.YearFromTime t, JSDate.MonthFromTime t + 1, JSDate.DateFromTime t)
    (timelineFrom t o)
    (JSDate.YearFromTime (t + durationSum o),
     JSDate.MonthFromTime (t + durationSum o) + 1,
     JSDate.DateFromTime (t + durationSum o)).
Proof.
  revert t. induction o as [| [nm days] rest IH]; intros t.
  - cbn. rewrite Z.add_0_r. reflexivity.
  - cbn [timelineFrom chained stageStart stageEnd stageDuration
           Utils.formatDate durationSum].
    split; [reflexivity |]. eexists. split; [reflexivity |].
    split.
    + unfold daysBetween. rewrite !daysFromCivil_formatDate. lia.
    + replace (t + (days + durationSum rest))
        with (t + days + durationSum rest) by lia.
      apply IH.
Qed.

Lemma timelineFrom_names (o : list (string * Z)) (t : Z) :
  map stageName (timelineFrom t o) = map fst o
  /\ map stageDuration (timelineFrom t o) = map snd o.
Proof.
  revert t. induction o as [| [nm days] rest IH]; intros t.
  - split; reflexivity.
  - cbn [timelineFrom map stageName stageDuration fst snd].
    destruct (IH (t + days)) as [-> ->]. split; reflexivity.
Qed.

(** What both loops leave on a date that has fields. *)
Lemma cycle_loops_on_fields (o : list (string * Z)) (s : string) (y m d : Z) :
  JSString.dateFields s = Some (y, m, d) ->
  fold_left MapJs.stageStep o ([], JSString.parseDate s)
  = (timelineFrom (daysFromCivil y m d) o,
     Some (daysFromCivil y m d + durationSum o))
  /\ fold_left Script.stageStep o ([], JSString.parseDate s)
     = (timelineFrom (daysFromCivil y m d) o,
        Some (daysFromCivil y m d + durationSum o)).
Proof.
  intros H. rewrite loops_agree, (parseDate_fields _ _ _ _ H).
  rewrite MapJs_loop_lines. split; reflexivity.
Qed.

(** The fields of the time value of a date of the calendar. *)
Lemma fields_of_calendar_date (s : string) (y m d : Z) :
  JSString.dateFields s = Some (y, m, d) -> d <= daysInMonth y m ->
  (JSDate.YearFromTime (daysFromCivil y m d),
   JSDate.MonthFromTime (daysFromCivil y m d) + 1,
   JSDate.DateFromTime (daysFromCivil y m d)) = (y, m, d).
Proof.
  intros H Hd. pose proof (formatDate_parseDate _ _ _ _ H Hd) as F.
  rewrite (parseDate_fields _ _ _ _ H) in F. cbn in F.
  injection F as -> -> ->. reflexivity.
Qed.



(** ** The two copies of the cycle handler *)

(** The two classifiers give badges of the same class. *)
Lemma badge_classes_agree (month day : IntNum.t) (r : Region) :
  exists b, Script.getPlantingSeason month day (Some r) = Rendered b
            /\ badge_class b
               = badge_class (Utils.getPlantingSeason month day (Some r)).
Proof.
  unfold Script.getPlantingSeason, Utils.getPlantingSeason. cbv zeta.
  repeat match goal with
    | |- context [if ?b then _ else _] => destruct b
    end; eexists; split; reflexivity.
Qed.



(** ** A date that does not parse *)

(** A comparison with a [NaN] date never holds. *)
Lemma isBetween_NaN (start end_ : list IntNum.t) :
  isBetween None None start end_ = false.
Proof.
  unfold isBetween. cbn [IntNum.mul IntNum.add IntNum.ge IntNum.le].
  destruct (IntNum.gt _ _); reflexivity.
Qed.



(** ** Which outcome a handler has *)

(** Settle the cases of an outcome table once the tests are decided. *)
Ltac settle :=
  repeat split; intros;
  repeat match goal with
    | H : _ /\ _ |- _ => destruct H
    | H : exists _, _ |- _ => destruct H
    | H : _ \/ _ |- _ => destruct H
    end;
  try reflexivity; try discriminate; try congruence; try tauto;
  try (left; reflexivity); try (right; reflexivity);
  try match goal with
    | H : ~ (Some _ <> None) |- _ => exfalso; apply H; discriminate
    end;
  eauto.




(** ** The soil report *)

(** No measurement is [NaN] exactly when the test of the handler finds
    none. *)
Lemma all_measured (inputs : Inputs.t) :
  existsb Number.isNaN (Inputs.values inputs) = false
  <-> forall key : Nutrient, Number.isNaN (measured key inputs) = false.
Proof.
  split.
  - intros H key.
    destruct (Number.isNaN (measured key inputs)) eqn:E; [| reflexivity].
    apply missing_measurement_found in E. congruence.
  - intros H.
    destruct (existsb Number.isNaN (Inputs.values inputs)) eqn:E; [| reflexivity].
    apply existsb_exists in E. destruct E as [x [Hin Hx]].
    assert (exists key, x = measured key inputs) as [key ->].
    { simpl in Hin.
      destruct Hin as [<- | [<- | [<- | [<- | [<- | [<- | [<- | [<- | [<- |
                      [<- | [<- | []]]]]]]]]]]];
        [exists N_ph | exists N_v | exists N_al | exists N_p | exists N_k
        | exists N_ca | exists N_mg | exists N_s | exists N_b | exists N_zn
        | exists N_n]; reflexivity. }
    rewrite H in Hx. discriminate Hx.
Qed.

Lemma reportLines_labels (inputs : Inputs.t) (ideal : Ideal.t) :
  map label (reportLines inputs ideal) = reportLabels
  /\ map value (reportLines inputs ideal) = Inputs.values inputs.
Proof.
  unfold reportLines, createReportLine.
  destruct (Ideal.max (Ideal.ph ideal)); split; reflexivity.
Qed.

(** When a report is rendered.  Both copies render a report exactly when
    the variety key is not empty, none of the eleven measurements is [NaN]
    and the key is in the table; the report then has the eleven lines of
    the variety, labelled in the fixed order pH, V%, Al, P, K, Ca, Mg, S,
    B, Zn, N and carrying the measured values in that order.  With the
    first two conditions met and the key not in the table both copies end
    with a [TypeError]. *)
Theorem soil_report_outcomes
    (varieties : gmap string Variety) (varietyKey : string)
    (inputs : Inputs.t) :
  let numeric := forall key : Nutrient, Number.isNaN (measured key inputs) = false in
  (forall lines : list ReportLine,
      (MapJs.handleSoilAnalysis varieties varietyKey inputs = Rendered lines
       <-> Script.analyzeSoilBtn_click varieties varietyKey inputs = Rendered lines)
      /\ (MapJs.handleSoilAnalysis varieties varietyKey inputs = Rendered lines
          <-> varietyKey <> "" /\ numeric
              /\ exists cultivar,
                   varieties !! varietyKey = Some cultivar
                   /\ lines = reportLines inputs (ideal_soil_conditions cultivar))
      /\ (MapJs.handleSoilAnalysis varieties varietyKey inputs = Rendered lines ->
          map label lines = reportLabels
          /\ map value lines = Inputs.values inputs))
  /\ (MapJs.handleSoilAnalysis varieties varietyKey inputs = Threw TypeError
      <-> varietyKey <> "" /\ numeric /\ varieties !! varietyKey = None)
  /\ (Script.analyzeSoilBtn_click varieties varietyKey inputs = Threw TypeError
      <-> varietyKey <> "" /\ numeric /\ varieties !! varietyKey = None).
Proof.
  cbv zeta. pose proof (all_measured inputs) as A.
  unfold MapJs.handleSoilAnalysis, Script.analyzeSoilBtn_click.
  destruct (String.eqb_spec varietyKey "") as [Hk | Hk]; cbn [orb];
    [solve [settle] |].
  destruct (existsb Number.isNaN (Inputs.values inputs)).
  - assert (N : ~ forall key, Number.isNaN (measured key inputs) = false)
      by (intros H; apply A in H; discriminate H).
    settle.
  - assert (N : forall key, Number.isNaN (measured key inputs) = false)
      by (apply A; reflexivity).
    destruct (varieties !! varietyKey) as [cultivar |]; [| solve [settle]].
    split; [| solve [settle]].
    intros lines. split; [solve [settle] |]. split.
    + split.
      * intros H. injection H as <-. repeat split; auto.
        exists cultivar. split; reflexivity.
      * intros (_ & _ & c & Hc & ->). injection Hc as <-. reflexivity.
    + intros H. injection H as <-. apply reportLines_labels.
Qed.

(** The lines of a rendered report are those of the variety. *)
Lemma soil_rendered_lines
    (varieties : gmap string Variety) (varietyKey : string)
    (inputs : Inputs.t) (cultivar : Variety) (lines : list ReportLine) :
  varieties !! varietyKey = Some cultivar ->
  MapJs.handleSoilAnalysis varieties varietyKey inputs = Rendered lines
  \/ Script.analyzeSoilBtn_click varieties varietyKey inputs = Rendered lines ->
  lines = reportLines inputs (ideal_soil_conditions cultivar).
Proof.
  intros Hvar. unfold MapJs.handleSoilAnalysis, Script.analyzeSoilBtn_click.
  destruct (String.eqb varietyKey ""); cbn [orb];
    [intros [H | H]; discriminate H |].
  destruct (existsb Number.isNaN (Inputs.values inputs));
    [intros [H | H]; discriminate H |].
  rewrite Hvar. intros [H | H]; injection H as <-; reflexivity.
Qed.

(** A threshold that is not there.  A line whose threshold is [undefined]
    is ok for every value, reversed or not.  The aluminum line takes its
    threshold from [al_cmolc.max]: for a variety whose aluminum descriptor
    has no [max], every rendered report has its third line ok, with the
    ideal text built on [undefined], whatever aluminum was measured. *)
Theorem missing_threshold_never_flags
    (varieties : gmap string Variety) (varietyKey : string)
    (inputs : Inputs.t) (cultivar : Variety) (lines : list ReportLine) :
  varieties !! varietyKey = Some cultivar ->
  Ideal.max (Ideal.al_cmolc (ideal_soil_conditions cultivar)) = None ->
  MapJs.handleSoilAnalysis varieties varietyKey inputs = Rendered lines
  \/ Script.analyzeSoilBtn_click varieties varietyKey inputs = Rendered lines ->
  (exists line,
      nth_error lines 2 = Some line
      /\ label line = "Aluminum (Al³⁺)"
      /\ value line = Inputs.al inputs
      /\ status line = "ok"
      /\ idealText line = [Lit "< "; Val None])
  /\ (forall (l u : string) (v : Number.t) (isReversed : bool),
        status (createReportLine l u v None None isReversed) = "ok").
Proof.
  intros Hvar Hmax Hr.
  pose proof (soil_rendered_lines _ _ _ _ _ Hvar Hr) as Hl.
  subst lines. split.
  - eexists. split; [reflexivity |].
    rewrite Hmax. unfold createReportLine. cbn.
    destruct (Inputs.al inputs); repeat split; reflexivity.
  - intros l u v isReversed. unfold createReportLine. cbn.
    destruct isReversed, v; reflexivity.
Qed.

Lemma missing_threshold_never_flags_witness :
  (exists line,
      nth_error (reportLines toxicSample (ideal_soil_conditions ceilingUnderMin)) 2
      = Some line
      /\ label line = "Aluminum (Al³⁺)"
      /\ value line = Inputs.al toxicSample
      /\ status line = "ok"
      /\ idealText line = [Lit "< "; Val None])
  /\ (forall (l u : string) (v : Number.t) (isReversed : bool),
        status (createReportLine l u v None None isReversed) = "ok").
Proof.
  apply (missing_threshold_never_flags (<["ceiling" := ceilingUnderMin]> ∅)
           "ceiling" toxicSample ceilingUnderMin);
    [reflexivity | reflexivity | left; reflexivity].
Defined.

(** ** Windows over the end of the year *)

(** A window that wraps.  When the start is encoded above the end, the
    dates outside the window are exactly those strictly between the end
    and the start; with bounds that are dates of the calendar the window
    holds both 31 December and 1 January.  A window whose bounds are the
    same date holds that date only. *)
Theorem wrapped_window
    (month day : Z) (start end_ : Z * Z) :
  validMonthDay start -> validMonthDay end_ ->
  let inside m d :=
    isBetween (Some m) (Some d) [Some (fst start); Some (snd start)]
      [Some (fst end_); Some (snd end_)] in
  (encode start > encode end_ ->
   inside month day
   = negb ((encode end_ <? encode (month, day))
           && (encode (month, day) <? encode start))
   /\ inside 12 31 = true /\ inside 1 1 = true)
  /\ (encode start = encode end_ ->
      (inside month day = true <-> encode (month, day) = encode start)).
Proof.
  intros [Hsm Hsd] [Hem Hed]. cbv beta zeta. rewrite !isBetween_insideWindow.
  unfold insideWindow, encode in *. cbn [fst snd] in *.
  split; intros H.
  - repeat split; split_tests; try reflexivity; lia.
  - split_tests; cbn; split; intros; try lia; try discriminate; reflexivity.
Qed.

Lemma wrapped_window_witness :
  let inside m d :=
    isBetween (Some m) (Some d) [Some 12; Some 15] [Some 1; Some 31] in
  (encode (12, 15) > encode (1, 31) ->
   inside 7 4
   = negb ((encode (1, 31) <? encode (7, 4)) && (encode (7, 4) <? encode (12, 15)))
   /\ inside 12 31 = true /\ inside 1 1 = true)
  /\ (encode (12, 15) = encode (1, 31) ->
      (inside 7 4 = true <-> encode (7, 4) = encode (12, 15))).
Proof.
  apply (wrapped_window 7 4 (12, 15) (1, 31)); unfold validMonthDay; simpl; lia.
Defined.

(** ** The order of the stages *)

Lemma durationSum_Permutation (o o' : list (string * Z)) :
  Permutation o o' -> durationSum o = durationSum o'.
Proof.
  induction 1 as [| [nm days] l l' _ IH | [n1 d1] [n2 d2] l | l l' l'' _ IH1 _ IH2];
    cbn [durationSum]; lia.
Qed.

(** The order of the stages does not matter to the harvest.  Two
    varieties whose stages are the same up to their order get the same
    total and the same harvest date from both copies (only the lines
    between differ). *)
Theorem stage_order_is_irrelevant
    (varieties varieties' : gmap string Variety) (zoning : gmap string Region)
    (varietyKey plantingDateStr regionKey : string)
    (cultivar cultivar' : Variety) (start : Z * Z * Z) :
  String.eqb varietyKey "" = false ->
  String.eqb regionKey "" = false ->
  varieties !! varietyKey = Some cultivar ->
  varieties' !! varietyKey = Some cultivar' ->
  Permutation (stages cultivar) (stages cultivar') ->
  JSString.dateFields (plantingDateStr ++ "T00:00:00") = Some start ->
  (exists res res',
      MapJs.handleCycleCalculation varieties zoning varietyKey plantingDateStr
        regionKey = Rendered res
      /\ MapJs.handleCycleCalculation varieties' zoning varietyKey
           plantingDateStr regionKey = Rendered res'
      /\ totalCycleDays res = totalCycleDays res'
      /\ harvestDate res = harvestDate res')
  /\ (forall r : Region,
        zoning !! regionKey = Some r ->
        exists res res',
          Script.calculateButton_click varieties zoning regionKey
            plantingDateStr varietyKey = Rendered res
          /\ Script.calculateButton_click varieties' zoning regionKey
               plantingDateStr varietyKey = Rendered res'
          /\ totalCycleDays res = totalCycleDays res'
          /\ harvestDate res = harvestDate res').
Proof.
  intros Hkey Hreg Hvar Hvar' Hperm Hfields.
  pose proof (dateFields_nonempty _ _ Hfields) as Hstr.
  destruct start as [[y m] d].
  pose proof (durationSum_Permutation _ _ Hperm) as Hsum.
  destruct (cycle_loops_on_fields (stages cultivar) _ _ _ _ Hfields) as [LM LS].
  destruct (cycle_loops_on_fields (stages cultivar') _ _ _ _ Hfields) as [LM' LS'].
  split.
  - unfold MapJs.handleCycleCalculation. cbv zeta.
    rewrite Hkey, Hstr, Hreg, Hvar, Hvar'. cbn [orb].
    use_loop LM. use_loop LM'.
    eexists; eexists. split; [reflexivity |]. split; [reflexivity |].
    cbn [totalCycleDays harvestDate]. rewrite !sumStages_durationSum, Hsum.
    split; reflexivity.
  - intros r Hr. unfold Script.calculateButton_click. cbv zeta.
    rewrite Hstr, Hkey, Hvar, Hvar', Hr. cbn [orb].
    use_loop LS. use_loop LS'.
    rewrite (parseDate_fields _ _ _ _ Hfields). cbn [JSDate.getTime].
    destruct (badge_classes_agree
                (IntNum.add (JSDate.getUTCMonth (Some (daysFromCivil y m d))) (Some 1))
                (JSDate.getUTCDate (Some (daysFromCivil y m d))) r) as [b [Eb _]].
    rewrite Eb.
    eexists; eexists. split; [reflexivity |]. split; [reflexivity |].
    cbn [totalCycleDays harvestDate]. rewrite !sumStages_durationSum, Hsum.
    split; reflexivity.
Qed.

Lemma stage_order_is_irrelevant_witness :
  (exists res res',
      MapJs.handleCycleCalculation cottonVarieties zoningData "brs 433"
        "2024-11-05" "mg-sp" = Rendered res
      /\ MapJs.handleCycleCalculation (<["brs 433" := brs_433_reordered]> ∅)
           zoningData "brs 433" "2024-11-05" "mg-sp" = Rendered res'
      /\ totalCycleDays res = totalCycleDays res'
      /\ harvestDate res = harvestDate res')
  /\ (forall r : Region,
        zoningData !! "mg-sp" = Some r ->
        exists res res',
          Script.calculateButton_click cottonVarieties zoningData "mg-sp"
            "2024-11-05" "brs 433" = Rendered res
          /\ Script.calculateButton_click (<["brs 433" := brs_433_reordered]> ∅)
               zoningData "mg-sp" "2024-11-05" "brs 433" = Rendered res'
          /\ totalCycleDays res = totalCycleDays res'
          /\ harvestDate res = harvestDate res').
Proof.
  apply (stage_order_is_irrelevant cottonVarieties
           (<["brs 433" := brs_433_reordered]> ∅) zoningData "brs 433"
           "2024-11-05" "mg-sp" brs_433 brs_433_reordered (2024, 11, 5));
    try reflexivity.
  apply perm_swap.
Defined.

(** ** The zoning table *)

(** Read the strings of a table entry. *)
Ltac read_windows :=
  repeat match goal with
    | |- context [splitMonthDay ?s] =>
        let v := eval vm_compute in (splitMonthDay s) in
        change (splitMonthDay s) with v
    end.

(** Every entry of [zoningData] keeps its preferential window inside its
    tolerated window, for any numbers of month and day. *)
Lemma zoningData_windows (key : string) (r : Region) (month day : Z) :
  zoningData !! key = Some r ->
  isBetween (Some month) (Some day)
    (splitMonthDay (preferential_start r)) (splitMonthDay (preferential_end r)) = true ->
  isBetween (Some month) (Some day)
    (splitMonthDay (tolerated_start r)) (splitMonthDay (tolerated_end r)) = true.
Proof.
  unfold zoningData. intros H.
  repeat (apply lookup_insert_Some in H; destruct H as [[_ <-] | [_ H]]);
    [.. | rewrite lookup_empty in H; discriminate H];
    cbn [preferential_start preferential_end tolerated_start tolerated_end mkRegion];
    read_windows; unfold isBetween, JSString.at_; cbn;
    split_tests; intros; try reflexivity; try discriminate; lia.
Qed.

(** The tolerated window decides the recommendation.  For every
    region of the zoning table the preferential window lies inside the
    tolerated one, so that a date is Not Recommended, in both copies of the
    classifier, exactly when it is outside the tolerated window, and
    Preferential or Tolerated exactly when it is inside. *)
Theorem tolerated_window_decides (key : string) (r : Region) (month day : Z) :
  zoningData !! key = Some r ->
  let tolerated :=
    isBetween (Some month) (Some day)
      (splitMonthDay (tolerated_start r)) (splitMonthDay (tolerated_end r)) in
  let utils := Utils.getPlantingSeason (Some month) (Some day) (Some r) in
  (badge_class utils = "not-recommended" <-> tolerated = false)
  /\ (badge_class utils = "preferential" \/ badge_class utils = "tolerated"
      <-> tolerated = true)
  /\ exists script,
       Script.getPlantingSeason (Some month) (Some day) (Some r) = Rendered script
       /\ badge_class script = badge_class utils.
Proof.
  intros H. pose proof (zoningData_windows key r month day H) as W.
  cbv zeta. unfold Utils.getPlantingSeason, Script.getPlantingSeason. cbv zeta.
  destruct (isBetween (Some month) (Some day)
              (splitMonthDay (preferential_start r))
              (splitMonthDay (preferential_end r))).
  - rewrite (W eq_refl). cbn [badge_class].
    repeat split; intros; try discriminate; try reflexivity; try (left; reflexivity).
    eexists; split; reflexivity.
  - destruct (isBetween (Some month) (Some day)
                (splitMonthDay (tolerated_start r))
                (splitMonthDay (tolerated_end r))); cbn [badge_class];
      (repeat split; intros; try discriminate; try reflexivity;
       try (right; reflexivity);
       try match goal with
         | D : _ \/ _ |- _ => destruct D; discriminate
         end;
       try (eexists; split; reflexivity)).
Qed.

Lemma tolerated_window_decides_witness :
  let tolerated :=
    isBetween (Some 1) (Some 10)
      (splitMonthDay "12-01") (splitMonthDay "01-31") in
  let utils :=
    Utils.getPlantingSeason (Some 1) (Some 10)
      (Some (mkRegion "12-15" "01-15" "12-01" "01-31")) in
  (badge_class utils = "not-recommended" <-> tolerated = false)
  /\ (badge_class utils = "preferential" \/ badge_class utils = "tolerated"
      <-> tolerated = true)
  /\ exists script,
       Script.getPlantingSeason (Some 1) (Some 10)
         (Some (mkRegion "12-15" "01-15" "12-01" "01-31")) = Rendered script
       /\ badge_class script = badge_class utils.
Proof.
  apply (tolerated_window_decides "go-ms" (mkRegion "12-15" "01-15" "12-01" "01-31") 1 10).
  reflexivity.
Defined.

(** ** The variety table of [script.js] *)

(** The thresholds of the table.  For the varieties of
    [cottonVarieties] every line of the soil report reads a threshold that
    is there, so no ideal text is built on [undefined]; and the pH range
    has its [min] below its [max], so the pH line is low exactly when the
    value is below [min], high exactly when it is above [max]. *)
Theorem table_thresholds_are_there
    (key : string) (cultivar : Variety) (inputs : Inputs.t) :
  cottonVarieties !! key = Some cultivar ->
  let ideal := ideal_soil_conditions cultivar in
  Forall (fun line => Forall (fun piece => piece <> Val None) (idealText line))
         (reportLines inputs ideal)
  /\ exists lo hi pH,
       Ideal.min (Ideal.ph ideal) = Some lo
       /\ Ideal.max (Ideal.ph ideal) = Some hi
       /\ Number.le lo hi = true
       /\ nth_error (reportLines inputs ideal) 0 = Some pH
       /\ (status pH = "low" <-> Number.lt (Inputs.ph inputs) lo = true)
       /\ (status pH = "high" <-> Number.gt (Inputs.ph inputs) hi = true).
Proof.
  unfold cottonVarieties. intros H.
  repeat (apply lookup_insert_Some in H; destruct H as [[_ <-] | [_ H]]);
    [.. | rewrite lookup_empty in H; discriminate H];
    cbv zeta; (split;
    [ unfold reportLines, createReportLine;
      cbn [ideal_soil_conditions tmg_84_b3xf brs_433 only_min only_max
           Ideal.min Ideal.max Ideal.ph Ideal.v_percent Ideal.al_cmolc Ideal.p_ppm
           Ideal.k_ppm Ideal.ca_cmolc Ideal.mg_cmolc Ideal.s_ppm Ideal.b_ppm
           Ideal.zn_ppm Ideal.n_ppm idealText];
      repeat (constructor; [cbn [idealText]; repeat (constructor; [discriminate |]); constructor |]);
      constructor
    | do 3 eexists;
      split; [reflexivity |]; split; [reflexivity |];
      split; [vm_compute; reflexivity |];
      split; [reflexivity |];
      unfold createReportLine;
      cbn [ideal_soil_conditions tmg_84_b3xf brs_433 Ideal.min Ideal.max Ideal.ph
           Number.ofValue status];
      match goal with
      | |- context [Number.lt ?v ?lo] =>
          match goal with
          | |- context [Number.gt v ?hi] =>
              pose proof (between_excludes_le v lo hi) as Hx;
              destruct (Number.lt v lo), (Number.gt v hi); cbn [status];
              split; split; intros; try reflexivity; try discriminate;
              exfalso; specialize (Hx eq_refl eq_refl); vm_compute in Hx; discriminate Hx
          end
      end ]).
Qed.

Lemma table_thresholds_are_there_witness :
  let ideal := ideal_soil_conditions brs_433 in
  Forall (fun line => Forall (fun piece => piece <> Val None) (idealText line))
         (reportLines sampleInputs ideal)
  /\ exists lo hi pH,
       Ideal.min (Ideal.ph ideal) = Some lo
       /\ Ideal.max (Ideal.ph ideal) = Some hi
       /\ Number.le lo hi = true
       /\ nth_error (reportLines sampleInputs ideal) 0 = Some pH
       /\ (status pH = "low" <-> Number.lt (Inputs.ph sampleInputs) lo = true)
       /\ (status pH = "high" <-> Number.gt (Inputs.ph sampleInputs) hi = true).
Proof.
  apply (table_thresholds_are_there "brs 433" brs_433 sampleInputs). reflexivity.
Defined.

(* ===================================================================== *)
(** * Properties of drawing a field *)
(* ===================================================================== *)

(** ** The geometry *)

(** A closed ring.  [getPolygonGeometry] returns [null] exactly when
    fewer than three points are drawn; otherwise it returns a Polygon with
    one ring, which lists the points in the order of the clicks as
    [[lng, lat]], has one position more than there are points, and ends on
    the position it starts with. *)
Theorem geometry_is_closed_ring (d : Drawing) :
  (getPolygonGeometry d = None <-> (length (polygonPoints d) < 3)%nat)
  /\ (forall g : Geometry,
        getPolygonGeometry d = Some g ->
        type_ g = "Polygon"
        /\ coordinates g = [ringOf (polygonPoints d)]
        /\ length (ringOf (polygonPoints d)) = S (length (polygonPoints d))
        /\ (exists p, head (ringOf (polygonPoints d)) = Some p
                      /\ List.last (ringOf (polygonPoints d)) p = p
                      /\ head (polygonPoints d)
                         = Some {| lat := snd p; lng := fst p |})
        /\ removelast (ringOf (polygonPoints d))
           = map (fun q => (lng q, lat q)) (polygonPoints d)).
Proof.
  unfold getPolygonGeometry.
  destruct (Nat.ltb_spec (length (polygonPoints d)) 3) as [L | L].
  - split; [tauto |]. intros g H. discriminate H.
  - split; [split; [discriminate | lia] |].
    intros g H. injection H as <-. cbn [type_ coordinates].
    destruct (polygonPoints d) as [| p rest]; [simpl in L; lia |].
    cbn [ringOf map firstn].
    repeat split.
    + rewrite length_app. cbn. rewrite length_map. lia.
    + exists (lng p, lat p). cbn [head fst snd]. split; [reflexivity |].
      split; [| destruct p; reflexivity].
      change ((lng p, lat p) :: map (fun q => (lng q, lat q)) rest ++ [(lng p, lat p)])%list
        with (((lng p, lat p) :: map (fun q => (lng q, lat q)) rest) ++ [(lng p, lat p)])%list.
      apply last_last.
    + change ((lng p, lat p) :: map (fun q => (lng q, lat q)) rest ++ [(lng p, lat p)])%list
        with (((lng p, lat p) :: map (fun q => (lng q, lat q)) rest) ++ [(lng p, lat p)])%list.
      apply removelast_last.
Qed.

(** ** The layers and the area over a series of clicks and clears *)

Lemma filter_markers (keep : Layer -> bool) (points : list LatLng) :
  (forall p, keep (Marker p) = true) ->
  List.filter keep (map Marker points) = map Marker points.
Proof.
  intros K. induction points as [| p rest IH]; [reflexivity |].
  cbn [map List.filter]. rewrite K. cbn. f_equal. exact IH.
Qed.

Lemma filter_layersOf (keep : Layer -> bool) (enough : nat) (points : list LatLng)
    (latlng : LatLng) :
  (forall p, keep (Marker p) = true) ->
  (forall ps, keep (Polygon ps) = false) ->
  List.filter keep (layersOf enough points ++ [Marker latlng])
  = map Marker (points ++ [latlng]).
Proof.
  intros KM KP. unfold layersOf.
  rewrite !List.filter_app, (filter_markers keep points KM), map_app.
  destruct (enough <=? length points)%nat; cbn [List.filter map];
    rewrite ?KP, KM; cbn; rewrite ?app_nil_r; reflexivity.
Qed.

Lemma length_layersOf (enough : nat) (points : list LatLng) :
  length (layersOf enough points)
  = (length points + if (enough <=? length points)%nat then 1 else 0)%nat.
Proof.
  unfold layersOf. rewrite length_app, length_map.
  destruct (enough <=? length points)%nat; reflexivity.
Qed.

Lemma dispatchArea_points (turf_area : option Geometry -> Number.t) (d : Drawing) :
  polygonPoints (dispatchArea turf_area d) = polygonPoints d
  /\ polygonLayer (dispatchArea turf_area d) = polygonLayer d.
Proof.
  unfold dispatchArea. destruct (3 <=? length (polygonPoints d))%nat; split; reflexivity.
Qed.

(** One click keeps the layers in step with the points, first copy. *)
Lemma V25_click_layers (turf_area : option Geometry -> Number.t)
    (d : Drawing) (latlng : LatLng) :
  polygonLayer d = layersOf 2 (polygonPoints d) ->
  polygonPoints (MapV25.addPolygonMarker turf_area d latlng)
  = (polygonPoints d ++ [latlng])%list
  /\ polygonLayer (MapV25.addPolygonMarker turf_area d latlng)
     = layersOf 2 (polygonPoints d ++ [latlng]).
Proof.
  intros L. unfold MapV25.addPolygonMarker.
  match goal with |- context [dispatchArea _ ?u] =>
    destruct (dispatchArea_points turf_area u) as [-> ->] end.
  unfold MapV25.updatePolygon. cbn [polygonPoints polygonLayer].
  split; [reflexivity |].
  rewrite L, filter_layersOf by (intros; reflexivity).
  unfold layersOf.
  destruct (2 <=? length (polygonPoints d ++ [latlng]))%nat;
    rewrite ?app_nil_r; reflexivity.
Qed.

(** One click keeps the layers in step with the points, second copy. *)
Lemma Service_click_layers (turf_area : option Geometry -> Number.t)
    (d : Drawing) (latlng : LatLng) :
  polygonLayer d = layersOf 3 (polygonPoints d) ->
  polygonPoints (MapService.addPolygonMarker turf_area d latlng)
  = (polygonPoints d ++ [latlng])%list
  /\ polygonLayer (MapService.addPolygonMarker turf_area d latlng)
     = layersOf 3 (polygonPoints d ++ [latlng]).
Proof.
  intros L. unfold MapService.addPolygonMarker.
  match goal with |- context [dispatchArea _ ?u] =>
    destruct (dispatchArea_points turf_area u) as [-> ->] end.
  unfold MapService.updatePolygon. cbn [polygonPoints polygonLayer].
  split; [reflexivity |].
  rewrite L.
  assert (F : (if (length (polygonPoints d ++ [latlng])
                   <? length (layersOf 3 (polygonPoints d) ++ [Marker latlng]))%nat
               then List.filter isMarker (layersOf 3 (polygonPoints d) ++ [Marker latlng])
               else (layersOf 3 (polygonPoints d) ++ [Marker latlng])%list)
              = map Marker (polygonPoints d ++ [latlng])).
  { rewrite (filter_layersOf isMarker) by (intros; reflexivity).
    rewrite !length_app, length_layersOf. cbn [length].
    unfold layersOf.
    destruct (Nat.leb_spec 3 (length (polygonPoints d))) as [G | G].
    - destruct (Nat.ltb_spec (length (polygonPoints d) + 1)
                             (length (polygonPoints d) + 1 + 1)); [reflexivity | lia].
    - destruct (Nat.ltb_spec (length (polygonPoints d) + 1)
                             (length (polygonPoints d) + 0 + 1)); [lia |].
      rewrite app_nil_r, map_app. reflexivity. }
  rewrite F. unfold layersOf.
  destruct (3 <=? length (polygonPoints d ++ [latlng]))%nat;
    rewrite ?app_nil_r; reflexivity.
Qed.

Lemma click_layers (copy : MapCopy) (turf_area : option Geometry -> Number.t)
    (d : Drawing) (latlng : LatLng) :
  polygonLayer d
  = layersOf (polygonFrom copy) (polygonPoints d) ->
  polygonPoints (map_addPolygonMarker copy turf_area d latlng)
  = (polygonPoints d ++ [latlng])%list
  /\ polygonLayer (map_addPolygonMarker copy turf_area d latlng)
     = layersOf (polygonFrom copy)
                (polygonPoints d ++ [latlng]).
Proof.
  destruct copy; cbn [map_addPolygonMarker polygonFrom].
  - apply V25_click_layers.
  - apply Service_click_layers.
Qed.

Lemma areaOf_points (turf_area : option Geometry -> Number.t) (d e : Drawing) :
  polygonPoints d = polygonPoints e -> areaOf turf_area d = areaOf turf_area e.
Proof.
  intros E. unfold areaOf, getPolygonGeometry. rewrite E. reflexivity.
Qed.

(** The events of a click: the log grows by the area of the drawing once
    there are three points, and not at all before. *)
Lemma click_events (copy : MapCopy) (turf_area : option Geometry -> Number.t)
    (d : Drawing) (latlng : LatLng) :
  let d' := map_addPolygonMarker copy turf_area d latlng in
  mapchange d'
  = (mapchange d
     ++ if (3 <=? length (polygonPoints d ++ [latlng]))%nat
        then [areaOf turf_area d'] else [])%list.
Proof.
  assert (G : forall u : Drawing,
             polygonPoints u = (polygonPoints d ++ [latlng])%list ->
             mapchange u = mapchange d ->
             mapchange (dispatchArea turf_area u)
             = (mapchange d
                ++ if (3 <=? length (polygonPoints d ++ [latlng]))%nat
                   then [areaOf turf_area (dispatchArea turf_area u)] else [])%list).
  { intros u P M. unfold dispatchArea. rewrite P.
    destruct (3 <=? length (polygonPoints d ++ [latlng]))%nat.
    - cbn [mapchange]. rewrite M. do 2 f_equal. apply areaOf_points. exact P.
    - rewrite M, app_nil_r. reflexivity. }
  destruct copy; cbn [map_addPolygonMarker];
    [unfold MapV25.addPolygonMarker | unfold MapService.addPolygonMarker];
    cbv zeta; apply G; reflexivity.
Qed.

Lemma click_area (copy : MapCopy) (turf_area : option Geometry -> Number.t)
    (d : Drawing) (latlng : LatLng) :
  polygonLayer d
  = layersOf (polygonFrom copy) (polygonPoints d) ->
  currentMapArea d = shownArea turf_area d ->
  currentMapArea (map_addPolygonMarker copy turf_area d latlng)
  = shownArea turf_area (map_addPolygonMarker copy turf_area d latlng).
Proof.
  intros L A.
  destruct (click_layers copy turf_area d latlng L) as [P _].
  pose proof (click_events copy turf_area d latlng) as M. cbv zeta in M.
  unfold currentMapArea, shownArea in *. rewrite M, P.
  destruct (Nat.leb_spec 3 (length (polygonPoints d ++ [latlng]))) as [G | G].
  - apply last_last.
  - rewrite app_nil_r. rewrite A.
    rewrite length_app in G. cbn in G.
    destruct (Nat.leb_spec 3 (length (polygonPoints d))); [lia | reflexivity].
Qed.

Lemma clearDrawing_kept (copy : MapCopy) (turf_area : option Geometry -> Number.t)
    (d : Drawing) :
  drawingKept copy turf_area (clearDrawing d).
Proof.
  split; [destruct copy; reflexivity |].
  unfold currentMapArea, shownArea, clearDrawing. cbn [mapchange polygonPoints].
  rewrite last_last. reflexivity.
Qed.

Lemma drawStep_kept (copy : MapCopy) (turf_area : option Geometry -> Number.t)
    (d : Drawing) (op : DrawOp) :
  drawingKept copy turf_area d -> drawingKept copy turf_area (drawStep copy turf_area d op).
Proof.
  intros [L A]. destruct op as [latlng |]; cbn [drawStep].
  - split.
    + destruct (click_layers copy turf_area d latlng L) as [P ->]. rewrite P. reflexivity.
    + apply click_area; assumption.
  - apply clearDrawing_kept.
Qed.

Lemma drawStep_points (copy : MapCopy) (turf_area : option Geometry -> Number.t)
    (d : Drawing) (op : DrawOp) :
  drawingKept copy turf_area d ->
  polygonPoints (drawStep copy turf_area d op) = pointsAfter (polygonPoints d) [op].
Proof.
  intros [L _]. destruct op as [latlng |]; cbn [drawStep pointsAfter fold_left].
  - apply (click_layers copy turf_area d latlng L).
  - reflexivity.
Qed.

Lemma drawRun_kept (copy : MapCopy) (turf_area : option Geometry -> Number.t)
    (ops : list DrawOp) (d : Drawing) :
  drawingKept copy turf_area d ->
  drawingKept copy turf_area (drawRun copy turf_area d ops)
  /\ polygonPoints (drawRun copy turf_area d ops) = pointsAfter (polygonPoints d) ops.
Proof.
  unfold drawRun, pointsAfter. revert d.
  induction ops as [| op ops IH]; intros d K; [split; [exact K | reflexivity] |].
  cbn [fold_left].
  destruct (IH _ (drawStep_kept copy turf_area d op K)) as [K' P].
  split; [exact K' |]. rewrite P. f_equal.
  apply (drawStep_points copy turf_area d op K).
Qed.

Lemma emptyDrawing_kept (copy : MapCopy) (turf_area : option Geometry -> Number.t) :
  drawingKept copy turf_area emptyDrawing.
Proof. destruct copy; split; reflexivity. Qed.

(** The layers follow the points.  After any series of clicks and
    clears on a fresh map, the points are the clicks since the last clear,
    and the layer group holds one marker for each of them, in the order of
    the clicks, followed by a single polygon through all of them once
    there are enough: two in the first copy of [map.js], three in the
    second.  No polygon of an earlier click is left behind. *)
Theorem layers_follow_points (copy : MapCopy)
    (turf_area : option Geometry -> Number.t) (ops : list DrawOp) :
  let d := drawRun copy turf_area emptyDrawing ops in
  polygonPoints d = pointsAfter [] ops
  /\ polygonLayer d
     = (map Marker (polygonPoints d)
        ++ if (polygonFrom copy <=? length (polygonPoints d))%nat
           then [Polygon (polygonPoints d)] else [])%list.
Proof.
  destruct (drawRun_kept copy turf_area ops emptyDrawing
              (emptyDrawing_kept copy turf_area)) as [[L _] P].
  split; [exact P | exact L].
Qed.

(** The area on the page is never stale.  After any series of clicks
    and clears on a fresh map, [state.currentMapArea] is the area of the
    geometry of the points drawn now, with its hectares one
    ten-thousandth of its square metres, when there are three points or
    more, and zero when there are fewer; whatever was drawn before the
    last clear has no part in it. *)
Theorem shown_area_is_current (copy : MapCopy)
    (turf_area : option Geometry -> Number.t) (ops : list DrawOp) :
  let d := drawRun copy turf_area emptyDrawing ops in
  currentMapArea d
  = if (3 <=? length (polygonPoints d))%nat
    then {| squareMeters := turf_area (getPolygonGeometry d);
            hectares := Number.div (turf_area (getPolygonGeometry d))
                                   (Number.ofZ 10000) |}
    else zeroArea.
Proof.
  destruct (drawRun_kept copy turf_area ops emptyDrawing
              (emptyDrawing_kept copy turf_area)) as [[_ A] _].
  exact A.
Qed.

Lemma drawRun_events (turf_area : option Geometry -> Number.t)
    (ops : list DrawOp) (d e : Drawing) :
  drawingKept V25 turf_area d -> drawingKept Service turf_area e ->
  polygonPoints d = polygonPoints e -> mapchange d = mapchange e ->
  mapchange (drawRun V25 turf_area d ops) = mapchange (drawRun Service turf_area e ops).
Proof.
  unfold drawRun. revert d e.
  induction ops as [| op ops IH]; intros d e Kd Ke P M; [exact M |].
  cbn [fold_left]. apply IH.
  - apply drawStep_kept, Kd.
  - apply drawStep_kept, Ke.
  - rewrite (drawStep_points V25 turf_area d op Kd),
            (drawStep_points Service turf_area e op Ke), P. reflexivity.
  - destruct op as [latlng |]; cbn [drawStep].
    + pose proof (click_events V25 turf_area d latlng) as E1.
      pose proof (click_events Service turf_area e latlng) as E2.
      cbv zeta in E1, E2. rewrite E1, E2, M, P. f_equal.
      destruct (3 <=? length (polygonPoints e ++ [latlng]))%nat; [| reflexivity].
      f_equal. apply areaOf_points.
      destruct Kd as [Ld _], Ke as [Le _].
      destruct (click_layers V25 turf_area d latlng Ld) as [-> _].
      destruct (click_layers Service turf_area e latlng Le) as [-> _].
      rewrite P. reflexivity.
    + cbn [clearDrawing mapchange]. rewrite M. reflexivity.
Qed.

(** The two copies of [map.js] differ in the preview only.  After the
    same clicks and clears they hold the same points, return the same
    geometry, have dispatched the same events and show the same area;
    their layers are the same too, unless exactly two points are drawn,
    where the first copy shows the line between them as a polygon and the
    second shows the two markers alone. *)
Theorem drawing_copies_agree (turf_area : option Geometry -> Number.t)
    (ops : list DrawOp) :
  let d1 := drawRun V25 turf_area emptyDrawing ops in
  let d2 := drawRun Service turf_area emptyDrawing ops in
  polygonPoints d1 = polygonPoints d2
  /\ getPolygonGeometry d1 = getPolygonGeometry d2
  /\ mapchange d1 = mapchange d2
  /\ currentMapArea d1 = currentMapArea d2
  /\ polygonLayer d1
     = (polygonLayer d2
        ++ if (length (polygonPoints d2) =? 2)%nat
           then [Polygon (polygonPoints d2)] else [])%list.
Proof.
  destruct (drawRun_kept V25 turf_area ops emptyDrawing
              (emptyDrawing_kept V25 turf_area)) as [[L1 _] P1].
  destruct (drawRun_kept Service turf_area ops emptyDrawing
              (emptyDrawing_kept Service turf_area)) as [[L2 _] P2].
  pose proof (drawRun_events turf_area ops emptyDrawing emptyDrawing
                (emptyDrawing_kept V25 turf_area)
                (emptyDrawing_kept Service turf_area) eq_refl eq_refl) as M.
  cbv zeta.
  assert (P : polygonPoints (drawRun V25 turf_area emptyDrawing ops)
              = polygonPoints (drawRun Service turf_area emptyDrawing ops))
    by (rewrite P1, P2; reflexivity).
  split; [exact P |].
  split; [unfold getPolygonGeometry; rewrite P; reflexivity |].
  split; [exact M |].
  split; [unfold currentMapArea; rewrite M; reflexivity |].
  rewrite L1, L2, P. unfold layersOf, polygonFrom.
  rewrite <- app_assoc. f_equal.
  destruct (Nat.leb_spec 2 (length (polygonPoints (drawRun Service turf_area emptyDrawing ops))));
    destruct (Nat.leb_spec 3 (length (polygonPoints (drawRun Service turf_area emptyDrawing ops))));
    destruct (Nat.eqb_spec (length (polygonPoints (drawRun Service turf_area emptyDrawing ops))) 2);
    try lia; reflexivity.
Qed.

(* ===================================================================== *)
(** * Properties of the map view *)
(* ===================================================================== *)

Lemma exitCreationMode_kept (copy : MapCopy)
    (turf_area : option Geometry -> Number.t) (s : MapView) :
  mapViewKept copy turf_area (exitCreationMode s).
Proof.
  unfold mapViewKept, exitCreationMode.
  cbn [drawing currentMapMode currentPlantLocation tempPlantMarker
       fieldCreationControlsHidden plantCreationControlsHidden plantTypeSelectDisabled
       MapMode_eqb negb].
  split; [apply clearDrawing_kept |]. repeat split.
Qed.

Lemma setPlantLocation_kept (copy : MapCopy)
    (turf_area : option Geometry -> Number.t) (latlng : LatLng) (s : MapView) :
  mapViewKept copy turf_area s ->
  mapViewKept copy turf_area (setPlantLocation latlng s).
Proof.
  intros K. unfold setPlantLocation.
  destruct (currentMapMode s) eqn:M; cbn [MapMode_eqb negb]; try exact K.
  destruct K as (D & _ & F & P & _ & _). rewrite M in F, P.
  unfold mapViewKept.
  cbn [drawing currentMapMode currentPlantLocation tempPlantMarker
       fieldCreationControlsHidden plantCreationControlsHidden plantTypeSelectDisabled].
  rewrite ?M. destruct latlng. split; [exact D | repeat split; assumption].
Qed.

Lemma mapStep_kept (copy : MapCopy) (turf_area : option Geometry -> Number.t)
    (s : MapView) (e : MapEvent) :
  mapViewKept copy turf_area s -> mapViewKept copy turf_area (mapStep copy turf_area s e).
Proof.
  intros K. destruct e; cbn [mapStep].
  - (* a click on the map *)
    unfold handleMapClick.
    destruct (currentMapMode s) eqn:M; cbn [MapMode_eqb].
    + exact K.
    + destruct K as (D & _ & F & P & T & B).
      unfold mapViewKept, withDrawing.
      cbn [drawing currentMapMode currentPlantLocation tempPlantMarker
           fieldCreationControlsHidden plantCreationControlsHidden plantTypeSelectDisabled].
      rewrite M in *.
      split; [apply (drawStep_kept copy turf_area (drawing s) (Click latlng) D) |].
      repeat split; assumption.
    + apply setPlantLocation_kept, K.
  - destruct K as (D & _ & _ & _ & T & B).
    split; [exact D | repeat split; assumption].
  - destruct K as (D & _ & _ & _ & T & B).
    split; [exact D | repeat split; assumption].
  - apply exitCreationMode_kept.
  - destruct K as (D & V & F & P & T & B).
    unfold mapViewKept, withDrawing.
    cbn [drawing currentMapMode currentPlantLocation tempPlantMarker
         fieldCreationControlsHidden plantCreationControlsHidden plantTypeSelectDisabled].
    split; [apply clearDrawing_kept |].
    split; [| repeat split; assumption].
    destruct (currentMapMode s); [split; [reflexivity | apply V] | exact I | exact I].
  - apply setPlantLocation_kept, K.
Qed.

Lemma mapRun_kept (copy : MapCopy) (turf_area : option Geometry -> Number.t)
    (s0 : MapView) (events : list MapEvent) :
  mapViewKept copy turf_area (mapRun copy turf_area s0 events).
Proof.
  unfold mapRun.
  generalize (exitCreationMode_kept copy turf_area s0).
  generalize (exitCreationMode s0). clear s0.
  induction events as [| e events IH]; intros s K; [exact K |].
  cbn [fold_left]. apply IH, mapStep_kept, K.
Qed.

(** The map view and its mode.  From the opening of the map view on,
    whatever was on the page before and whatever happens on it: in view
    mode nothing is drawn and no plant location is set; the controls of
    field creation are shown exactly in ['create-field'] mode and those of
    plant creation exactly in ['create-plant'] mode; the temporary marker
    stands where the plant location is; and the type, the tag and the tag
    generator of the plant form are disabled exactly when no location is
    set. *)
Theorem map_view_follows_mode (copy : MapCopy)
    (turf_area : option Geometry -> Number.t)
    (s0 : MapView) (events : list MapEvent) :
  let s := mapRun copy turf_area s0 events in
  match currentMapMode s with
  | view =>
      polygonPoints (drawing s) = [] /\ polygonLayer (drawing s) = []
      /\ currentPlantLocation s = None
      /\ fieldCreationControlsHidden s = true
      /\ plantCreationControlsHidden s = true
  | create_field =>
      fieldCreationControlsHidden s = false /\ plantCreationControlsHidden s = true
  | create_plant =>
      fieldCreationControlsHidden s = true /\ plantCreationControlsHidden s = false
  end
  /\ tempPlantMarker s = currentPlantLocation s
  /\ plantTypeSelectDisabled s
     = match currentPlantLocation s with None => true | Some _ => false end.
Proof.
  cbv zeta.
  destruct (mapRun_kept copy turf_area s0 events) as ([L _] & V & F & P & T & B).
  split; [| split; assumption].
  destruct (currentMapMode (mapRun copy turf_area s0 events));
    cbn [MapMode_eqb negb] in F, P; [| split; assumption | split; assumption].
  destruct V as [V1 V2]. rewrite L, V1.
  repeat split; try assumption. destruct copy; reflexivity.
Qed.

(** A saved field is the field drawn.  From the opening of the map
    view on, whatever happens on it, [handleSaveField] either shows its
    message, exactly when the trimmed name is empty or fewer than three
    points are drawn, or sends field data: then the page is not in view
    mode, the name is the trimmed input, the geometry is the closed ring
    of the points drawn now, and the area is that of this very geometry,
    in hectares. *)
Theorem saved_field_is_drawn_field (copy : MapCopy)
    (turf_area : option Geometry -> Number.t) (trim : string -> string)
    (s0 : MapView) (events : list MapEvent) (fieldNameInput : string) :
  let s := mapRun copy turf_area s0 events in
  let points := polygonPoints (drawing s) in
  match handleSaveField trim fieldNameInput (drawing s) with
  | Rendered data =>
      trim fieldNameInput <> ""
      /\ (3 <= length points)%nat
      /\ currentMapMode s <> view
      /\ field_name data = trim fieldNameInput
      /\ geometry data
         = Some {| type_ := "Polygon"; coordinates := [ringOf points] |}
      /\ area_hectares data
         = Number.div (turf_area (geometry data)) (Number.ofZ 10000)
  | Rejected message =>
      message = nameAndPointsRequired
      /\ (trim fieldNameInput = "" \/ (length points < 3)%nat)
  | Threw _ => False
  end.
Proof.
  cbv zeta.
  destruct (mapRun_kept copy turf_area s0 events) as ([_ A] & V & _).
  set (s := mapRun copy turf_area s0 events) in *.
  unfold handleSaveField. cbv zeta.
  destruct (String.eqb_spec (trim fieldNameInput) "") as [E | E]; cbn [orb].
  { split; [reflexivity | left; exact E]. }
  destruct (getPolygonGeometry (drawing s)) as [g |] eqn:G.
  2:{ split; [reflexivity | right].
      unfold getPolygonGeometry in G.
      destruct (Nat.ltb_spec (length (polygonPoints (drawing s))) 3); [assumption | discriminate G]. }
  cbn [field_name geometry area_hectares].
  assert (N : (3 <= length (polygonPoints (drawing s)))%nat).
  { unfold getPolygonGeometry in G.
    destruct (Nat.ltb_spec (length (polygonPoints (drawing s))) 3); [discriminate G | assumption]. }
  split; [exact E |]. split; [exact N |].
  split.
  { intros M. rewrite M in V. destruct V as [V _]. rewrite V in N. cbn in N. lia. }
  split; [reflexivity |].
  split.
  { unfold getPolygonGeometry in G.
    destruct (Nat.ltb_spec (length (polygonPoints (drawing s))) 3); [discriminate G |].
    injection G as <-.
    destruct (polygonPoints (drawing s)); [cbn in N; lia | reflexivity]. }
  rewrite A. unfold shownArea.
  destruct (Nat.leb_spec 3 (length (polygonPoints (drawing s)))); [| lia].
  unfold areaOf. cbn [hectares]. rewrite G. reflexivity.
Qed.

(** A saved plant stands where the marker is.  From the opening of the
    map view on, whatever happens on it, [handleSavePlant] asks for a
    location exactly when the type select of the plant form is disabled;
    it asks for type and tag when the select is enabled and one of the two
    is empty; otherwise it sends the plant with the trimmed tag and the
    location of the temporary marker, and the page is not in view mode. *)
Theorem saved_plant_is_marked_plant (copy : MapCopy)
    (turf_area : option Geometry -> Number.t) (trim : string -> string)
    (s0 : MapView) (events : list MapEvent) (plantTypeSelect plantTagInput : string) :
  let s := mapRun copy turf_area s0 events in
  match handleSavePlant trim plantTypeSelect plantTagInput s with
  | Rendered data =>
      plantTypeSelectDisabled s = false
      /\ currentMapMode s <> view
      /\ location data = tempPlantMarker s
      /\ location data <> None
      /\ plant_type data = plantTypeSelect /\ plantTypeSelect <> ""
      /\ unique_tag data = trim plantTagInput /\ trim plantTagInput <> ""
  | Rejected message =>
      (message = locationRequired /\ plantTypeSelectDisabled s = true)
      \/ (message = typeAndTagRequired /\ plantTypeSelectDisabled s = false
          /\ (plantTypeSelect = "" \/ trim plantTagInput = ""))
  | Threw _ => False
  end.
Proof.
  cbv zeta.
  destruct (mapRun_kept copy turf_area s0 events) as (_ & V & _ & _ & T & B).
  set (s := mapRun copy turf_area s0 events) in *.
  unfold handleSavePlant. cbv zeta. cbn [location plant_type unique_tag].
  destruct (currentPlantLocation s) as [l |] eqn:L.
  2:{ left. split; [reflexivity | exact B]. }
  destruct (String.eqb_spec plantTypeSelect "") as [E1 | E1]; cbn [orb].
  { right. repeat split; try assumption. left; exact E1. }
  destruct (String.eqb_spec (trim plantTagInput) "") as [E2 | E2].
  { right. repeat split; try assumption. right; exact E2. }
  cbn [location plant_type unique_tag].
  repeat split; try assumption; try congruence.
  intros M. rewrite M in V. destruct V as [_ V]. discriminate V.
Qed.

(* ===================================================================== *)
(** * Properties of the variety table and of the buttons *)
(* ===================================================================== *)

Lemma spacesToHyphens_chars (s : string) :
  Forall (fun c => c <> " "%char) (chars (spacesToHyphens s))
  /\ String.length (spacesToHyphens s) = String.length s.
Proof.
  induction s as [| c rest [IH1 IH2]]; [split; [constructor | reflexivity] |].
  cbn [spacesToHyphens chars String.length]. split; [| rewrite IH2; reflexivity].
  constructor; [| exact IH1].
  destruct (Ascii.eqb_spec c " "); [discriminate | assumption].
Qed.

Lemma tripleToHyphen_chars (s : string) :
  Forall (fun c => c <> " "%char) (chars s) ->
  Forall (fun c => c <> " "%char) (chars (tripleToHyphen s))
  /\ (String.length (tripleToHyphen s) = String.length s
      \/ String.length (tripleToHyphen s) + 2 = String.length s)%nat.
Proof.
  induction s as [| c rest IH]; intros F; [split; [constructor | left; reflexivity] |].
  cbn [chars] in F. inversion F as [| ? ? Fc Frest]; subst.
  destruct (IH Frest) as [IH1 IH2].
  assert (G : Forall (fun c => c <> " "%char) (chars (String c (tripleToHyphen rest)))
              /\ (String.length (String c (tripleToHyphen rest)) = String.length (String c rest)
                  \/ String.length (String c (tripleToHyphen rest)) + 2
                     = String.length (String c rest))%nat).
  { cbn [chars String.length]. split; [constructor; assumption | lia]. }
  cbn [tripleToHyphen].
  destruct rest as [| c1 [| c2 rest']]; try exact G.
  destruct (Ascii.eqb c "-" && Ascii.eqb c1 "-" && Ascii.eqb c2 "-"); [| exact G].
  cbn [chars String.length]. split; [| right; lia].
  cbn [chars] in Frest. inversion Frest as [| ? ? _ F2]; subst.
  inversion F2 as [| ? ? _ F3]; subst.
  constructor; [discriminate | exact F3].
Qed.

(** The keys of the variety table.  Whatever [toLowerCase] returns for
    the name, the key holds no space, and it is as long as the lowered
    name or, when a run of three hyphens was found, two characters
    shorter. *)
Theorem variety_key_has_no_space (toLowerCase : string -> string) (variety : Variety) :
  Forall (fun c => c <> " "%char) (chars (tableKey toLowerCase variety))
  /\ (String.length (tableKey toLowerCase variety)
      = String.length (toLowerCase (name variety))
      \/ String.length (tableKey toLowerCase variety) + 2
         = String.length (toLowerCase (name variety)))%nat.
Proof.
  unfold tableKey.
  destruct (spacesToHyphens_chars (toLowerCase (name variety))) as [F L].
  destruct (tripleToHyphen_chars _ F) as [F' L'].
  split; [exact F' |]. rewrite <- L. exact L'.
Qed.

Lemma onLoginSuccess_snoc (toLowerCase : string -> string)
    (data : list Variety) (x : Variety) :
  onLoginSuccess toLowerCase (data ++ [x])
  = <[tableKey toLowerCase x := x]> (onLoginSuccess toLowerCase data).
Proof. unfold onLoginSuccess. rewrite fold_left_app. reflexivity. Qed.

Lemma NoDup_map_inj {A B : Type} (f : A -> B) (l : list A) (a b : A) :
  List.NoDup (map f l) -> In a l -> In b l -> f a = f b -> a = b.
Proof.
  induction l as [| x l IH]; intros N Ia Ib E; [destruct Ia |].
  cbn [map] in N. inversion N as [| ? ? Nx Nl]; subst.
  destruct Ia as [-> | Ia], Ib as [-> | Ib].
  - reflexivity.
  - exfalso. apply Nx. rewrite E. apply in_map, Ib.
  - exfalso. apply Nx. rewrite <- E. apply in_map, Ia.
  - apply IH; assumption.
Qed.

(** The variety table built at login.  A variety that the API returned
    is found under its key; what is found there is the last variety of the
    data with that key, so that of two varieties whose names give the same
    key the later one hides the earlier; and when the keys of the data are
    pairwise different, what is found is the variety itself. *)
Theorem variety_table_by_key (toLowerCase : string -> string)
    (varietiesData : list Variety) (variety : Variety)
    (H : In variety varietiesData) :
  let key := tableKey toLowerCase in
  exists (found : Variety) (before after : list Variety),
    onLoginSuccess toLowerCase varietiesData !! key variety = Some found
    /\ varietiesData = (before ++ found :: after)%list
    /\ key found = key variety
    /\ Forall (fun later => key later <> key variety) after
    /\ (List.NoDup (map key varietiesData) -> found = variety).
Proof.
  cbv zeta.
  assert (G : exists found before after,
             onLoginSuccess toLowerCase varietiesData !! tableKey toLowerCase variety
             = Some found
             /\ varietiesData = (before ++ found :: after)%list
             /\ tableKey toLowerCase found = tableKey toLowerCase variety
             /\ Forall (fun later => tableKey toLowerCase later
                                     <> tableKey toLowerCase variety) after).
  { induction varietiesData as [| x data IH] using rev_ind; [destruct H |].
    rewrite onLoginSuccess_snoc.
    destruct (String.eqb_spec (tableKey toLowerCase x) (tableKey toLowerCase variety))
      as [E | E].
    - exists x, data, []. rewrite E, lookup_insert_eq.
      split; [reflexivity |]. split; [reflexivity |].
      split; [reflexivity | constructor].
    - rewrite lookup_insert_ne by exact E.
      apply in_app_or in H. destruct H as [H | [-> | []]]; [| congruence].
      destruct (IH H) as (found & before & after & L & D & K & F).
      exists found, before, (after ++ [x])%list.
      split; [exact L |]. split; [rewrite D, <- app_assoc; reflexivity |].
      split; [exact K |].
      apply Forall_app. split; [exact F | constructor; [exact E | constructor]]. }
  destruct G as (found & before & after & L & D & K & F).
  exists found, before, after. repeat split; try assumption.
  intros N. apply (NoDup_map_inj (tableKey toLowerCase) varietiesData); try assumption.
  rewrite D. apply in_or_app. right. left. reflexivity.
Qed.

Lemma variety_table_by_key_witness :
  let key := tableKey lowerAZ in
  exists (found : Variety) (before after : list Variety),
    onLoginSuccess lowerAZ [brs_433; tmg_84_b3xf; brs_433_again] !! key brs_433
    = Some found
    /\ [brs_433; tmg_84_b3xf; brs_433_again] = (before ++ found :: after)%list
    /\ key found = key brs_433
    /\ Forall (fun later => key later <> key brs_433) after
    /\ (List.NoDup (map key [brs_433; tmg_84_b3xf; brs_433_again]) -> found = brs_433).
Proof.
  apply (variety_table_by_key lowerAZ [brs_433; tmg_84_b3xf; brs_433_again] brs_433).
  simpl. left. reflexivity.
Defined.

(** The loading state of a button.  Loading and then unloading a
    button enables it and gives it back the text it had, unless that text
    was empty: then the loading text stays.  Loading it twice before
    unloading loses the text: the first loading text is what comes back.
    The loading text passed when unloading plays no part. *)
Theorem button_loading_round_trip (button : Button)
    (first second unloading : option string) :
  let text t := match t with Some t => t | None => "Loading..." end in
  let once := setButtonLoading (setButtonLoading button true first) false unloading in
  let twice :=
    setButtonLoading
      (setButtonLoading (setButtonLoading button true first) true second)
      false unloading in
  disabled (setButtonLoading button true first) = true
  /\ textContent (setButtonLoading button true first) = text first
  /\ disabled once = false
  /\ textContent once
     = (if String.eqb (textContent button) "" then text first else textContent button)
  /\ disabled twice = false
  /\ textContent twice
     = (if String.eqb (text first) "" then text second else text first).
Proof.
  cbv zeta. unfold setButtonLoading.
  cbn [disabled textContent originalText].
  repeat split;
    match goal with
    | |- context [String.eqb ?a ""] => destruct (String.eqb a ""); reflexivity
    end.
Qed.

(* ===================================================================== *)
(** * Properties of the third drawing copy and of the variety selects *)
(* ===================================================================== *)

Lemma Frontend_step_kept (turf_area : option Geometry -> Number.t)
    (d : MapFrontend.Drawing) (op : DrawOp) :
  MapFrontend.drawingKept turf_area d ->
  MapFrontend.drawingKept turf_area (MapFrontend.drawStep turf_area d op)
  /\ MapFrontend.drawingMarkers (MapFrontend.drawStep turf_area d op)
     = pointsAfter (MapFrontend.drawingMarkers d) [op]
  /\ length (MapFrontend.mapchange (MapFrontend.drawStep turf_area d op))
     = S (length (MapFrontend.mapchange d)).
Proof.
  intros [P A]. destruct op as [latlng |]; cbn [MapFrontend.drawStep].
  - unfold MapFrontend.addPolygonMarker, MapFrontend.updateDrawingPolygon,
      MapFrontend.drawingKept, MapFrontend.currentMapArea.
    cbn [MapFrontend.drawingMarkers MapFrontend.drawingPolygon MapFrontend.mapchange
         pointsAfter fold_left].
    rewrite P, last_last, !length_app. cbn [length].
    repeat split; try lia.
    destruct (Nat.leb_spec 2 (length (MapFrontend.drawingMarkers d)));
      destruct (Nat.leb_spec 2 (length (MapFrontend.drawingMarkers d) + 1));
      destruct (Nat.ltb_spec 1 (length (MapFrontend.drawingMarkers d) + 1));
      try lia; reflexivity.
  - unfold MapFrontend.clearDrawing, MapFrontend.drawingKept,
      MapFrontend.currentMapArea.
    cbn [MapFrontend.drawingMarkers MapFrontend.drawingPolygon MapFrontend.mapchange
         pointsAfter fold_left].
    rewrite last_last, length_app. cbn [length].
    repeat split; lia.
Qed.

Lemma Frontend_run_kept (turf_area : option Geometry -> Number.t)
    (ops : list DrawOp) (d : MapFrontend.Drawing) :
  MapFrontend.drawingKept turf_area d ->
  MapFrontend.drawingKept turf_area (MapFrontend.drawRun turf_area d ops)
  /\ MapFrontend.drawingMarkers (MapFrontend.drawRun turf_area d ops)
     = pointsAfter (MapFrontend.drawingMarkers d) ops
  /\ length (MapFrontend.mapchange (MapFrontend.drawRun turf_area d ops))
     = (length (MapFrontend.mapchange d) + length ops)%nat.
Proof.
  unfold MapFrontend.drawRun, pointsAfter. revert d.
  induction ops as [| op ops IH]; intros d K.
  - cbn. repeat split; [apply K | apply K | lia].
  - cbn [fold_left length].
    destruct (Frontend_step_kept turf_area d op K) as (K' & P' & L').
    destruct (IH _ K') as (K'' & P'' & L'').
    split; [exact K'' |]. split.
    + rewrite P''. f_equal. exact P'.
    + rewrite L'', L'. lia.
Qed.

(** The third copy draws the same field.  After any series of clicks
    and clears on a fresh map, the copy in [frontend/js/map.js] holds the
    clicks since the last clear, shows a polygon through them exactly from
    two points on, has dispatched one event for every click and clear, and
    has the same geometry and the same stored area as the copies in
    [docs/js/map.js]. *)
Theorem frontend_copy_agrees (copy : MapCopy)
    (turf_area : option Geometry -> Number.t) (ops : list DrawOp) :
  let f := MapFrontend.drawRun turf_area MapFrontend.emptyDrawing ops in
  let d := drawRun copy turf_area emptyDrawing ops in
  MapFrontend.drawingMarkers f = pointsAfter [] ops
  /\ MapFrontend.drawingMarkers f = polygonPoints d
  /\ MapFrontend.drawingPolygon f
     = (if (2 <=? length (MapFrontend.drawingMarkers f))%nat
        then Some (MapFrontend.drawingMarkers f) else None)
  /\ length (MapFrontend.mapchange f) = length ops
  /\ MapFrontend.getPolygonGeometry f = getPolygonGeometry d
  /\ MapFrontend.currentMapArea f = currentMapArea d.
Proof.
  cbv zeta.
  assert (K0 : MapFrontend.drawingKept turf_area MapFrontend.emptyDrawing)
    by (split; reflexivity).
  destruct (Frontend_run_kept turf_area ops MapFrontend.emptyDrawing K0)
    as ([P A] & M & L).
  destruct (drawRun_kept copy turf_area ops emptyDrawing
              (emptyDrawing_kept copy turf_area)) as [[_ A'] M'].
  cbn [MapFrontend.emptyDrawing MapFrontend.drawingMarkers MapFrontend.mapchange
       emptyDrawing polygonPoints length] in M, L, M'.
  assert (E : MapFrontend.drawingMarkers
                (MapFrontend.drawRun turf_area MapFrontend.emptyDrawing ops)
              = polygonPoints (drawRun copy turf_area emptyDrawing ops))
    by (rewrite M, M'; reflexivity).
  split; [exact M |]. split; [exact E |]. split; [exact P |].
  split; [exact L |].
  split.
  - unfold MapFrontend.getPolygonGeometry, getPolygonGeometry. rewrite E. reflexivity.
  - rewrite A, A'. unfold MapFrontend.calculateArea, shownArea, areaOf,
      getPolygonGeometry. rewrite E.
    destruct (Nat.ltb_spec (length (polygonPoints (drawRun copy turf_area emptyDrawing ops))) 3);
      destruct (Nat.leb_spec 3 (length (polygonPoints (drawRun copy turf_area emptyDrawing ops))));
      try lia; reflexivity.
Qed.

(** ** The variety selects *)

Lemma cottonVarieties_entries :
  cottonVarieties = list_to_map cottonVarietyEntries.
Proof. reflexivity. Qed.

(** The values of a variety select resolve.  Whatever the crop, a value
    of an option that [populateVarieties] put into a select is empty or a
    key of [cottonVarieties]; so with a value chosen from the select the
    sowing and soil handlers of [script.js] never end with a [TypeError],
    and the cycle handler does so only when the region is not in the
    zoning table. *)
Theorem select_values_resolve (currentCrop varietyKey : string) :
  In varietyKey (map fst (populateVarieties currentCrop)) ->
  (varietyKey = "" \/ exists cultivar, cottonVarieties !! varietyKey = Some cultivar)
  /\ (forall (area germinationRate : Number.t) (conditions : string),
         Script.calculateSowingBtn_click cottonVarieties area varietyKey
           germinationRate conditions <> Threw TypeError)
  /\ (forall inputs : Inputs.t,
         Script.analyzeSoilBtn_click cottonVarieties varietyKey inputs
         <> Threw TypeError)
  /\ (forall currentRegion plantingDateStr : string,
         Script.calculateButton_click cottonVarieties zoningData currentRegion
           plantingDateStr varietyKey = Threw TypeError ->
         zoningData !! currentRegion = None).
Proof.
  intros H.
  assert (K : varietyKey = ""
              \/ exists cultivar, cottonVarieties !! varietyKey = Some cultivar).
  { unfold populateVarieties in H. cbn [map fst] in H.
    destruct H as [<- | H]; [left; reflexivity |].
    destruct (String.eqb currentCrop "cotton"); [| destruct H].
    cbn in H. destruct H as [<- | [<- | []]]; right; eexists; reflexivity. }
  split; [exact K |].
  split; [| split].
  - intros area germinationRate conditions.
    unfold Script.calculateSowingBtn_click.
    destruct K as [-> | [cultivar ->]].
    + rewrite orb_true_r. cbn [orb]. discriminate.
    + destruct (_ || _ || _); discriminate.
  - intros inputs. unfold Script.analyzeSoilBtn_click.
    destruct K as [-> | [cultivar ->]].
    + cbn [String.eqb orb]. discriminate.
    + destruct (_ || _); discriminate.
  - intros currentRegion plantingDateStr.
    unfold Script.calculateButton_click. cbv zeta.
    destruct K as [-> | [cultivar ->]].
    + rewrite orb_true_r. discriminate.
    + destruct (_ || _); [discriminate |].
      destruct (JSDate.getTime _); [| discriminate].
      destruct (zoningData !! currentRegion) as [r |]; [| reflexivity].
      destruct (badge_classes_agree
                  (IntNum.add (JSDate.getUTCMonth
                     (JSString.parseDate (plantingDateStr ++ "T00:00:00"))) (Some 1))
                  (JSDate.getUTCDate
                     (JSString.parseDate (plantingDateStr ++ "T00:00:00"))) r)
        as [b [-> _]].
      match goal with
      | |- context [fold_left ?f ?o ?st] => destruct (fold_left f o st) as [html cur]
      end.
      discriminate.
Qed.

Lemma select_values_resolve_witness :
  ("brs 433" = "" \/ exists cultivar, cottonVarieties !! "brs 433" = Some cultivar)
  /\ (forall (area germinationRate : Number.t) (conditions : string),
         Script.calculateSowingBtn_click cottonVarieties area "brs 433"
           germinationRate conditions <> Threw TypeError)
  /\ (forall inputs : Inputs.t,
         Script.analyzeSoilBtn_click cottonVarieties "brs 433" inputs
         <> Threw TypeError)
  /\ (forall currentRegion plantingDateStr : string,
         Script.calculateButton_click cottonVarieties zoningData currentRegion
           plantingDateStr "brs 433" = Threw TypeError ->
         zoningData !! currentRegion = None).
Proof.
  apply (select_values_resolve "cotton" "brs 433"). simpl. right. right. left. reflexivity.
Defined.

(* ===================================================================== *)
(** * Properties of the navigation *)
(* ===================================================================== *)

(** The back button leads to the setup screen.  On a page that has the
    dashboard and the map among its views, three clicks on the back button
    of [main.js] end on the setup screen, whatever was shown before; from
    the dashboard one click does, and a click from any other view leaves
    the screens as they are.  In [script.js] two clicks always do. *)
Theorem back_button_reaches_setup (isView : string -> bool) (p : Page) :
  isView "dashboard-view" = true ->
  isView "map-view" = true ->
  let back := backToSetupBtn_click isView in
  let onSetup q :=
    setupScreen q = true /\ mainAppScreen q = false /\ authScreen q = false in
  onSetup (back (back (back p)))
  /\ (activeView p = Some "dashboard-view" -> onSetup (back p))
  /\ (activeView p <> Some "dashboard-view" ->
      setupScreen (back p) = setupScreen p
      /\ mainAppScreen (back p) = mainAppScreen p
      /\ authScreen (back p) = authScreen p
      /\ (activeView (back p) = Some "dashboard-view"
          \/ activeView p = Some "field-details-view"
             /\ activeView (back p) = Some "map-view"))
  /\ (let back2 := ScriptNav.backToSetupBtn_click isView in
      setupScreen (back2 (back2 p)) = true
      /\ mainAppScreen (back2 (back2 p)) = false).
Proof.
  intros D M. cbv zeta.
  assert (B1 : forall q, activeView q = Some "dashboard-view" ->
                 backToSetupBtn_click isView q = Ui.showScreen "setup" q).
  { intros q E. unfold backToSetupBtn_click. rewrite E. reflexivity. }
  assert (B2 : forall q, activeView q = Some "map-view" ->
                 backToSetupBtn_click isView q = Ui.showView isView "dashboard-view" q).
  { intros q E. unfold backToSetupBtn_click. rewrite E. reflexivity. }
  assert (S1 : forall q, activeView (Ui.showView isView "dashboard-view" q)
                         = Some "dashboard-view")
    by (intros q; cbn; rewrite D; reflexivity).
  assert (S2 : forall q, activeView (Ui.showView isView "map-view" q) = Some "map-view")
    by (intros q; cbn; rewrite M; reflexivity).
  assert (C : forall q,
             backToSetupBtn_click isView q = Ui.showScreen "setup" q
             /\ activeView q = Some "dashboard-view"
             \/ backToSetupBtn_click isView q = Ui.showView isView "dashboard-view" q
                /\ activeView q <> Some "dashboard-view"
             \/ backToSetupBtn_click isView q = Ui.showView isView "map-view" q
                /\ activeView q = Some "field-details-view").
  { intros q. unfold backToSetupBtn_click.
    destruct (activeView q) as [id |]; [| right; left; split; [reflexivity | discriminate]].
    destruct (String.eqb_spec id "field-details-view") as [-> | F];
      [right; right; split; reflexivity |].
    destruct (String.eqb id "map-view" || String.eqb id "cycle-planner-view"
              || String.eqb id "sowing-calculator-view"
              || String.eqb id "soil-analysis-view") eqn:T.
    - right; left. split; [reflexivity |]. intros E. injection E as ->. discriminate T.
    - destruct (String.eqb_spec id "dashboard-view") as [-> | N].
      + left. split; reflexivity.
      + right; left. split; [reflexivity | congruence]. }
  split; [| split; [| split]].
  - destruct (C p) as [[E V] | [[E V] | [E V]]]; rewrite E.
    + rewrite (B1 (Ui.showScreen "setup" p) V).
      rewrite (B1 (Ui.showScreen "setup" (Ui.showScreen "setup" p)) V).
      repeat split.
    + rewrite (B1 _ (S1 p)).
      rewrite (B1 (Ui.showScreen "setup" (Ui.showView isView "dashboard-view" p)) (S1 p)).
      repeat split.
    + rewrite (B2 _ (S2 p)), (B1 _ (S1 _)). repeat split.
  - intros V. rewrite (B1 p V). repeat split.
  - intros V. destruct (C p) as [[E V'] | [[E V'] | [E V']]]; [contradiction | |];
      rewrite E; repeat split.
    + left. apply S1.
    + right. split; [exact V' | apply S2].
  - unfold ScriptNav.backToSetupBtn_click.
    destruct (mainAppScreen p && _) eqn:T.
    + unfold ScriptNav.showView. cbn [mainAppScreen activeView setupScreen].
      rewrite D, String.eqb_refl. cbn [negb]. rewrite andb_false_r.
      split; reflexivity.
    + cbn [mainAppScreen andb setupScreen]. split; reflexivity.
Qed.

Lemma back_button_reaches_setup_witness :
  let p := {| authScreen := false; setupScreen := false; mainAppScreen := true;
              activeView := Some "field-details-view" |} in
  let back := backToSetupBtn_click pageViews in
  let onSetup q :=
    setupScreen q = true /\ mainAppScreen q = false /\ authScreen q = false in
  onSetup (back (back (back p)))
  /\ (activeView p = Some "dashboard-view" -> onSetup (back p))
  /\ (activeView p <> Some "dashboard-view" ->
      setupScreen (back p) = setupScreen p
      /\ mainAppScreen (back p) = mainAppScreen p
      /\ authScreen (back p) = authScreen p
      /\ (activeView (back p) = Some "dashboard-view"
          \/ activeView p = Some "field-details-view"
             /\ activeView (back p) = Some "map-view"))
  /\ (let back2 := ScriptNav.backToSetupBtn_click pageViews in
      setupScreen (back2 (back2 p)) = true
      /\ mainAppScreen (back2 (back2 p)) = false).
Proof.
  apply (back_button_reaches_setup pageViews
           {| authScreen := false; setupScreen := false; mainAppScreen := true;
              activeView := Some "field-details-view" |}); reflexivity.
Defined.
